(** * WSL Orchestrator: the orchestration core of [app.py]

    A shallow embedding of the listing parser ([populate_wsl_list]), the
    selection handler ([on_item_select]), the rename workflow
    ([rename_distro], [_rename_worker], [check_rename_status]) and the command
    runner ([run_command]) of the Tk application, with the properties the
    design specification states about them.

    Python text is a sequence of Unicode code points; the widgets, the
    external [wsl] tool and the file system are an explicit state that the
    methods thread through a small state-and-exception monad. *)

From Stdlib Require Import ZArith NArith List String Ascii Bool Lia.
From Stdlib Require Import DecimalString.
From stdpp Require Import gmap list.

Import ListNotations.

(** ** Python text *)

(** A Python [str] is a sequence of code points. *)
Definition char := N.
Definition str := list char.

(** A literal of the source, written as a Rocq string of ASCII characters. *)
Definition lit (s : string) : str := map N_of_ascii (list_ascii_of_string s).
Arguments lit : simpl never.

Module Text.

Local Open Scope N_scope.

(** [str.isspace] of one character, which is also [\s] of [re] on text:
    CPython's [_PyUnicode_IsWhitespace]. *)
Definition isspace (c : char) : bool :=
  ((9 <=? c) && (c <=? 13)) || ((28 <=? c) && (c <=? 32))
  || (c =? 133) || (c =? 160) || (c =? 5760)
  || ((8192 <=? c) && (c <=? 8202))
  || (c =? 8232) || (c =? 8233) || (c =? 8239) || (c =? 8287) || (c =? 12288).

Definition is_ascii (c : char) : bool := c <? 128.

Definition is_ascii_digit (c : char) : bool := (48 <=? c) && (c <=? 57).
Definition is_ascii_upper (c : char) : bool := (65 <=? c) && (c <=? 90).
Definition is_ascii_lower (c : char) : bool := (97 <=? c) && (c <=? 122).

(** The class [[A-Za-z0-9_]]. *)
Definition is_ascii_word (c : char) : bool :=
  is_ascii_digit c || is_ascii_upper c || is_ascii_lower c || (c =? 95).

(** [str.isalnum] on U+0080..U+00FF: the letters of Latin-1 (all of
    U+00C0..U+00FF but the signs U+00D7 and U+00F7, and the three
    U+00AA, U+00B5, U+00BA) and its numeric characters (superscripts
    U+00B2, U+00B3, U+00B9 and the fractions U+00BC..U+00BE). *)
Definition is_latin1_alnum (c : char) : bool :=
  (c =? 170) || (c =? 178) || (c =? 179) || (c =? 181) || (c =? 185) || (c =? 186)
  || ((188 <=? c) && (c <=? 190))
  || ((192 <=? c) && (c <=? 214))
  || ((216 <=? c) && (c <=? 246))
  || ((248 <=? c) && (c <=? 255)).

Definition BOM : char := 65279.
Definition NUL : char := 0.
Definition LF : char := 10.
Definition SPACE : char := 32.
Definition STAR : char := 42.
Definition DOT : char := 46.
Definition HYPHEN : char := 45.
Definition QUOTE : char := 34.

(** [s.lstrip()] and [s.lstrip(chars)]: drop the leading characters that
    satisfy [p]. *)
Fixpoint lstrip_with (p : char -> bool) (s : str) : str :=
  match s with
  | [] => []
  | c :: t => if p c then lstrip_with p t else s
  end.

Definition rstrip_with (p : char -> bool) (s : str) : str :=
  rev (lstrip_with p (rev s)).

Definition lstrip (s : str) : str := lstrip_with isspace s.
Definition strip (s : str) : str := rstrip_with isspace (lstrip_with isspace s).
Definition lstrip_chars (chars s : str) : str :=
  lstrip_with (fun c => existsb (N.eqb c) chars) s.

(** [s.startswith(prefix)]. *)
Fixpoint startswith (s prefix : str) {struct prefix} : bool :=
  match prefix, s with
  | [], _ => true
  | p :: ps, c :: cs => (c =? p) && startswith cs ps
  | _ :: _, [] => false
  end.

(** [needle in s] on text: [needle] is a substring of [s]. *)
Fixpoint contains (needle s : str) : bool :=
  startswith s needle
  || match s with
     | [] => false
     | _ :: t => contains needle t
     end.

(** [s.split(sep)] for a separator of one character. *)
Fixpoint split (sep : char) (s : str) : list str :=
  match s with
  | [] => [[]]
  | c :: t =>
      if c =? sep then [] :: split sep t
      else match split sep t with
           | h :: r => (c :: h) :: r
           | [] => [[c]]
           end
  end.

(** [s.replace(c, '')] for one character [c]. *)
Definition remove_char (c : char) (s : str) : str :=
  List.filter (fun d => negb (d =? c)) s.

(** [re.split(r'\s{2,}', s)]. The pattern is greedy and a match starts at the
    first whitespace of a run, so the separators are exactly the maximal
    runs of two or more whitespace characters; a lone whitespace character
    stays in its field. [cur] is the field read so far, in reverse, and
    [insep] holds inside a separator. *)
Fixpoint re_split_gap (insep : bool) (cur : str) (s : str) : list str :=
  match s with
  | [] => [rev cur]
  | c :: t =>
      if isspace c then
        if insep then re_split_gap true cur t
        else match t with
             | d :: _ =>
                 if isspace d then rev cur :: re_split_gap true [] t
                 else re_split_gap false (c :: cur) t
             | [] => re_split_gap false (c :: cur) t
             end
      else re_split_gap false (c :: cur) t
  end.

Definition re_split_spaces (s : str) : list str := re_split_gap false [] s.

End Text.

(** ** The Python runtime *)

(** The exceptions the modelled code can meet. *)
Inductive exn := TypeError | ValueError | KeyError | IndexError | OSError.

(** The outcome of a call: a value, or an exception on its way up. *)
Inductive outcome (A : Type) :=
| Returns (a : A)
| Raises (e : exn).
Arguments Returns {A} a.
Arguments Raises {A} e.

(** What the interpreter brings and this development does not spell out:
    the Unicode database beyond Latin-1, integer parsing of text outside
    ASCII, and [str.format] on templates with conversions, format
    specifications or positional fields. Inside those fragments the
    functions below compute; outside they ask the runtime. *)
Record Python := {
  (** [c.isalnum()] for a code point above U+00FF *)
  uni_isalnum : char -> bool;
  (** no whitespace character is alphanumeric *)
  uni_isalnum_isspace : forall c, Text.isspace c = true -> uni_isalnum c = false;
  (** what [s.lower()] puts for the character at position [i] of [s], a code
      point above U+00FF other than U+0130 and U+212A; the text and the
      position are there for U+03A3, whose lower case looks at its
      neighbours *)
  uni_lower : str -> nat -> str;
  (** the lower case of such a character is never empty and holds no ASCII
      character: U+0130 and U+212A are the only characters outside ASCII
      whose lower case has one *)
  uni_lower_foreign : forall (s : str) (i : nat) (c : char),
    s !! i = Some c -> (256 <= c)%N -> c <> 304%N -> c <> 8490%N ->
    uni_lower s i <> [] /\ Forall (fun d => Text.is_ascii d = false) (uni_lower s i);
  (** [int(s)] for text outside printable ASCII or longer than 640 characters *)
  uni_int : str -> option Z;
  (** [template.format] with keyword arguments outside the fragment of [format_fields] *)
  uni_format : str -> list (str * str) -> outcome str
}.

(** A value read back from a Tk widget: [ttk.Treeview.item] passes every
    element of [values] through [int] and keeps the integer when the text
    parses ([tkinter.ttk._convert_stringval]). *)
Inductive value :=
| VStr (s : str)
| VInt (z : Z).

Module Py.

Import Text.
Local Open Scope N_scope.

Section WithRuntime.

Variable py : Python.

(** [\w] of [re] on text: alphanumeric in the Unicode sense, or [_]. *)
Definition is_word (c : char) : bool :=
  if c <? 128 then is_ascii_word c
  else if c <? 256 then is_latin1_alnum c
  else uni_isalnum py c.

(** [re.sub(r'[^\w.-]', '', s)]. *)
Definition re_sub_nonword (s : str) : str :=
  List.filter (fun c => is_word c || (c =? DOT) || (c =? HYPHEN)) s.

(** [s.lower()]: every character is replaced by its lower case, one
    character after the other ([do_lower] of CPython, and
    [ascii_upper_or_lower] on ASCII text, which agrees with it). The lower
    case of a character is one character but for U+0130, which gives [i] and
    the combining dot U+0307; the Kelvin sign U+212A gives [k]. *)
Definition ascii_lower (c : char) : char :=
  if is_ascii_upper c then c + 32 else c.

(** On U+0080..U+00FF the capitals are U+00C0..U+00DE without the sign
    U+00D7, each 32 below its small letter. *)
Definition latin1_lower (c : char) : char :=
  if (192 <=? c) && (c <=? 222) && negb (c =? 215) then c + 32 else c.

Definition lower_char (s : str) (i : nat) (c : char) : str :=
  if c <? 128 then [ascii_lower c]
  else if c <? 256 then [latin1_lower c]
  else if c =? 304 then [105; 775]
  else if c =? 8490 then [107]
  else uni_lower py s i.

(** The lower case of [rest], the part of [s] from position [i] on. *)
Fixpoint lower_from (s : str) (i : nat) (rest : str) : str :=
  match rest with
  | [] => []
  | c :: t => lower_char s i c ++ lower_from s (S i) t
  end.

Definition lower (s : str) : str := lower_from s 0 s.

(** [int(s)] in base 10: surrounding blanks, a sign, digits with single
    underscores between them. *)
Fixpoint int_digits (acc : Z) (after_digit : bool) (s : str) : option Z :=
  match s with
  | [] => if after_digit then Some acc else None
  | c :: t =>
      if is_ascii_digit c then int_digits (10 * acc + Z.of_N (c - 48)) true t
      else if (c =? 95) && after_digit then int_digits acc false t
      else None
  end.

Definition is_printable_ascii (c : char) : bool := (32 <=? c) && (c <=? 126).

Definition int (s : str) : option Z :=
  if forallb is_printable_ascii s && (length s <=? 640)%nat then
    match strip s with
    | [] => None
    | c :: t =>
        if c =? 45 then option_map Z.opp (int_digits 0 false t)
        else if c =? 43 then int_digits 0 false t
        else int_digits 0 false (c :: t)
    end
  else uni_int py s.

(** [ttk._convert_stringval]. *)
Definition convert_stringval (s : str) : value :=
  match int s with
  | Some z => VInt z
  | None => VStr s
  end.

(** [str(v)], which is also what an f-string and [format] put for [v]. *)
Definition to_str (v : value) : str :=
  match v with
  | VStr s => s
  | VInt z => lit (NilEmpty.string_of_int (Z.to_int z))
  end.

(** [template.format] with keyword arguments on templates made of literal text, the
    escapes [{{] and [}}], and fields [{name}] with [name] an identifier. *)
Inductive format_state :=
| InText
| AfterOpen
| InField (name : str)
| AfterClose.

Inductive format_result :=
| Formatted (s : str)
| FormatError (e : exn)
| NotSimple.

Fixpoint kwargs_get (kwargs : list (str * str)) (key : str) : option str :=
  match kwargs with
  | [] => None
  | (k, v) :: rest => if bool_decide (k = key) then Some v else kwargs_get rest key
  end.

Definition is_ident_start (c : char) : bool :=
  is_ascii_upper c || is_ascii_lower c || (c =? 95).

(** [out] and the field name are kept in reverse. *)
Fixpoint format_fields (kwargs : list (str * str)) (st : format_state)
    (out : str) (template : str) : format_result :=
  match template with
  | [] =>
      match st with
      | InText => Formatted (rev out)
      | _ => FormatError ValueError
      end
  | c :: t =>
      match st with
      | InText =>
          if c =? 123 then format_fields kwargs AfterOpen out t
          else if c =? 125 then format_fields kwargs AfterClose out t
          else format_fields kwargs InText (c :: out) t
      | AfterOpen =>
          if c =? 123 then format_fields kwargs InText (c :: out) t
          else if is_ident_start c then format_fields kwargs (InField [c]) out t
          else NotSimple
      | InField name =>
          if c =? 125 then
            match kwargs_get kwargs (rev name) with
            | Some v => format_fields kwargs InText (rev v ++ out) t
            | None => FormatError KeyError
            end
          else if is_ascii_word c then format_fields kwargs (InField (c :: name)) out t
          else NotSimple
      | AfterClose =>
          if c =? 125 then format_fields kwargs InText (c :: out) t
          else FormatError ValueError
      end
  end.

Definition format (template : str) (kwargs : list (str * str)) : outcome str :=
  match format_fields kwargs InText [] template with
  | Formatted s => Returns s
  | FormatError e => Raises e
  | NotSimple => uni_format py template kwargs
  end.

End WithRuntime.

End Py.

(** ** The host: the [wsl] tool, the file system, the environment *)

(** How [subprocess.run(command, check=True, ...)] ends. The output is
    already decoded text. *)
Inductive process :=
| Completed (stdout : str)
| CalledProcessError (stderr : str)
| FileNotFoundError
| OtherFailure (e : exn).

(** The operating system as the application sees it, over a state [S] that
    holds whatever the tool and the file system remember. [os_remove] and
    [os_makedirs] give [None] when the call raises. *)
Class Host (S : Type) := {
  subprocess_run : list str -> S -> process * S;
  os_remove : str -> S -> option S;
  os_makedirs : str -> S -> option S;
  gettempdir : S -> str;
  expanduser_home : S -> str;
  path_join : list str -> str
}.

(** How [subprocess.Popen(command, creationflags=CREATE_NEW_CONSOLE)]
    ends: the process is launched and left to itself, the executable is
    missing, or the call raises something else. *)
Inductive launched :=
| Launched
| NoExecutable
| LaunchFailure (e : exn).

(** The part of the host that opens consoles. *)
Class Console (S : Type) := {
  subprocess_Popen : list str -> S -> launched * S
}.

(** ** The application *)

(** One row of the tree view: the tuple given to [tree.insert] as [values]. *)
Record values := Values { name : str; state : str; version : str }.

Inductive widget_state := normal | disabled.

Record buttons := Buttons {
  terminal_button : widget_state;
  start_button : widget_state;
  rename_button : widget_state;
  stop_button : widget_state
}.

(** What the application does to the outside, in order. *)
Inductive event :=
| Run (command : list str)
| Remove (path : str)
| Makedirs (path : str)
| ShowError (title message : str)
| ShowInfo (title message : str)
| AskString (title prompt : str) (initialvalue : value)
| AskYesNo (title message : str)
| ProgressOpen (title message : str)
| ProgressDestroy
| ThreadStart (old_name : value) (new_name : str)
| After (ms : nat).

(** An external effect: a tool invocation, a file system call or a thread. *)
Definition is_external (ev : event) : bool :=
  match ev with
  | Run _ | Remove _ | Makedirs _ | ThreadStart _ _ => true
  | _ => false
  end.

#[global] Instance value_eq_dec : EqDecision value.
Proof. solve_decision. Defined.

#[global] Instance values_eq_dec : EqDecision values.
Proof. solve_decision. Defined.

Section Application.

Context {S : Type} `{Host S}.
Variable py : Python.

(** The attributes of the [WSLOrchestrator] window that the core reads and
    writes, the host, and the trace of effects so far (latest last). *)
Record App := MkApp {
  host : S;
  lang_data : gmap str str;
  tree : list values;
  selection : option nat;
  widgets : buttons;
  shortcut_command_var : str;
  rename_result : option str;
  trace : list event
}.

Definition set_host (s : S) (a : App) : App :=
  MkApp s (lang_data a) (tree a) (selection a) (widgets a)
        (shortcut_command_var a) (rename_result a) (trace a).
Definition set_tree (t : list values) (a : App) : App :=
  MkApp (host a) (lang_data a) t (selection a) (widgets a)
        (shortcut_command_var a) (rename_result a) (trace a).
Definition set_selection (i : option nat) (a : App) : App :=
  MkApp (host a) (lang_data a) (tree a) i (widgets a)
        (shortcut_command_var a) (rename_result a) (trace a).
Definition set_widgets (b : buttons) (a : App) : App :=
  MkApp (host a) (lang_data a) (tree a) (selection a) b
        (shortcut_command_var a) (rename_result a) (trace a).
Definition set_shortcut_command_var (c : str) (a : App) : App :=
  MkApp (host a) (lang_data a) (tree a) (selection a) (widgets a)
        c (rename_result a) (trace a).
Definition set_rename_result (r : option str) (a : App) : App :=
  MkApp (host a) (lang_data a) (tree a) (selection a) (widgets a)
        (shortcut_command_var a) r (trace a).
Definition log (ev : event) (a : App) : App :=
  MkApp (host a) (lang_data a) (tree a) (selection a) (widgets a)
        (shortcut_command_var a) (rename_result a) (trace a ++ [ev]).

(** *** Methods: state passing with exceptions *)

Definition M (A : Type) : Type := App -> outcome A * App.

Definition ret {A} (a : A) : M A := fun w => (Returns a, w).
Definition raise {A} (e : exn) : M A := fun w => (Raises e, w).
Definition bind {A B} (m : M A) (k : A -> M B) : M B :=
  fun w =>
    match m w with
    | (Returns a, w') => k a w'
    | (Raises e, w') => (Raises e, w')
    end.
Definition get : M App := fun w => (Returns w, w).
Definition modify (f : App -> App) : M unit := fun w => (Returns tt, f w).
Definition emit (ev : event) : M unit := modify (log ev).
Definition lift {A} (o : outcome A) : M A := fun w => (o, w).

Notation "'let!' x ':=' m 'in' k" := (bind m (fun x => k))
  (at level 10, x name, m at level 100, k at level 200).
Notation "m '>>>' k" := (bind m (fun _ => k))
  (at level 90, right associativity).

(** The state a method leaves behind. *)
Definition exec {A} (m : M A) (w : App) : App := snd (m w).

(** [for x in xs: body(x)]. *)
Fixpoint for_each {A} (xs : list A) (body : A -> M unit) : M unit :=
  match xs with
  | [] => ret tt
  | x :: rest => body x >>> for_each rest body
  end.

(** [get_string(key, fallback=None, kwargs)]. *)
Definition get_string (key : str) (fallback : option str)
    (kwargs : list (str * str)) : M str :=
  let! w := get in
  let fallback := match fallback with None => key | Some f => f end in
  lift (Py.format py (default fallback (lang_data w !! key)) kwargs).

(** [subprocess.run] wants text for every argument. *)
Fixpoint argv (command : list value) : option (list str) :=
  match command with
  | [] => Some []
  | VStr s :: rest => option_map (cons s) (argv rest)
  | VInt _ :: _ => None
  end.

(** [run_command(command)]. *)
Definition run_command (command : list value) : M str :=
  match argv command with
  | None => raise TypeError
  | Some args =>
      let! w := get in
      let (result, s) := subprocess_run args (host w) in
      modify (set_host s) >>> emit (Run args) >>>
      match result with
      | Completed stdout => ret stdout
      | FileNotFoundError =>
          let! msg := get_string (lit "error_wsl_not_found") None [] in
          ret (lit "Error: " ++ msg)
      | CalledProcessError stderr =>
          ret (lit "Error: Command Error" ++ [Text.LF] ++ stderr)
      | OtherFailure e => raise e
      end
  end.

(** The end of the loop body of [populate_wsl_list]: split the processed
    line and, when that gives three parts, build the [values] to insert. *)
Definition split_fields (processed_line : str) : option values :=
  match Text.re_split_spaces processed_line with
  | [p0; p1; p2] =>
      Some (Values (Py.re_sub_nonword py p0)
                   (Text.remove_char Text.NUL (Text.strip p1))
                   (Text.remove_char Text.NUL (Text.strip p2)))
  | _ => None
  end.

(** The loop body of [populate_wsl_list] up to the insertion: the row a
    line of the listing gives, if it gives one. *)
Definition parse_line (line : str) : option values :=
  let cleaned_line := Text.lstrip_chars [Text.BOM] (Text.strip line) in
  match cleaned_line with
  | [] => None
  | _ :: _ =>
      let processed_line :=
        if Text.startswith cleaned_line [Text.STAR]
        then Text.lstrip (drop 1 cleaned_line)
        else cleaned_line in
      split_fields processed_line
  end.

(** [lines = output.strip().split('\n')[1:]]. *)
Definition listing_lines (output : str) : list str :=
  drop 1 (Text.split Text.LF (Text.strip output)).

(** The rows a listing gives, in order. *)
Definition parse_listing (output : str) : list values :=
  omap parse_line (listing_lines output).

(** [self.tree.insert("", "end", values=v)]. *)
Definition tree_insert (v : values) : M unit :=
  modify (fun w => set_tree (tree w ++ [v]) w).

(** [self.tree.item(i)['values']]: every element comes back through
    [_convert_stringval]. *)
Definition item_values (v : values) : value * value * value :=
  (Py.convert_stringval py (name v),
   Py.convert_stringval py (state v),
   Py.convert_stringval py (version v)).

(** [self.tree.selection()] names rows of the tree only. *)
Definition selected (w : App) : option values :=
  match selection w with
  | Some i => tree w !! i
  | None => None
  end.

Definition config (f : buttons -> buttons) : M unit :=
  modify (fun w => set_widgets (f (widgets w)) w).

Definition config_terminal (st : widget_state) (b : buttons) : buttons :=
  Buttons st (start_button b) (rename_button b) (stop_button b).
Definition config_start (st : widget_state) (b : buttons) : buttons :=
  Buttons (terminal_button b) st (rename_button b) (stop_button b).
Definition config_rename (st : widget_state) (b : buttons) : buttons :=
  Buttons (terminal_button b) (start_button b) st (stop_button b).
Definition config_stop (st : widget_state) (b : buttons) : buttons :=
  Buttons (terminal_button b) (start_button b) (rename_button b) st.

(** [' ' in v]: membership in an [int] is a [TypeError]. *)
Definition has_space (v : value) : M bool :=
  match v with
  | VStr s => ret (Text.contains [Text.SPACE] s)
  | VInt _ => raise TypeError
  end.

(** The two commands of [on_item_select]. *)
Definition quoted_command (distro_name : value) : str :=
  lit "wsl.exe -d " ++ [Text.QUOTE] ++ Py.to_str distro_name ++ [Text.QUOTE].
Definition plain_command (distro_name : value) : str :=
  lit "wsl.exe -d " ++ Py.to_str distro_name.

(** [on_item_select(event)]. *)
Definition on_item_select : M unit :=
  let! w := get in
  match selected w with
  | Some item =>
      let '(distro_name, distro_state, _) := item_values item in
      config (config_terminal normal) >>>
      (if bool_decide (distro_state = VStr (lit "Stopped")) then
         config (config_start normal) >>>
         config (config_rename normal) >>>
         config (config_stop disabled)
       else
         config (config_start disabled) >>>
         config (config_rename disabled) >>>
         config (config_stop normal)) >>>
      let! spaced := has_space distro_name in
      let command :=
        if spaced then quoted_command distro_name
        else plain_command distro_name in
      modify (set_shortcut_command_var command)
  | None =>
      config (config_terminal disabled) >>>
      config (config_start disabled) >>>
      config (config_stop disabled) >>>
      config (config_rename disabled) >>>
      modify (set_shortcut_command_var [])
  end.

(** [populate_wsl_list()]. Deleting every row also empties the selection. *)
Definition populate_wsl_list : M unit :=
  modify (set_tree []) >>> modify (set_selection None) >>>
  let! output := run_command [VStr (lit "wsl"); VStr (lit "--list"); VStr (lit "--verbose")] in
  if Text.startswith output (lit "Error:") then ret tt
  else
    for_each (listing_lines output)
      (fun line =>
         match parse_line line with
         | Some v => tree_insert v
         | None => ret tt
         end) >>>
    on_item_select.

(** [show_progress_window()]. *)
Definition show_progress_window : M unit :=
  let! title := get_string (lit "rename_progress_title") None [] in
  let! message := get_string (lit "rename_progress_message") None [] in
  emit (ProgressOpen title message).

(** [messagebox.showerror(get_string("error_title"), get_string(key, kwargs))]. *)
Definition showerror (key : str) (kwargs : list (str * str)) : M unit :=
  let! title := get_string (lit "error_title") None [] in
  let! message := get_string key None kwargs in
  emit (ShowError title message).

(** [not new_name or not new_name.strip() or new_name == old_name], on what
    [simpledialog.askstring] returned ([None] when the dialog is cancelled). *)
Definition nothing_to_rename (reply : option str) (old_name : value) : bool :=
  match reply with
  | None => true
  | Some new_name =>
      match new_name with [] => true | _ :: _ => false end
      || match Text.strip new_name with [] => true | _ :: _ => false end
      || bool_decide (VStr new_name = old_name)
  end.

(** [[self.tree.item(i)['values'][0] for i in self.tree.get_children()]]. *)
Definition current_names (w : App) : list value :=
  map (fun v => Py.convert_stringval py (name v)) (tree w).

(** [rename_distro()], up to and including the start of the worker thread.
    [reply] is what the user types into the name dialog and [confirmed] the
    answer to the confirmation, should the method come to ask. The poll that
    follows the start is [check_rename_status]. *)
Definition rename_distro (reply : option str) (confirmed : bool) : M unit :=
  let! w := get in
  match selected w with
  | None => ret tt
  | Some item =>
      let '(old_name, distro_state, _) := item_values item in
      if negb (bool_decide (distro_state = VStr (lit "Stopped"))) then
        showerror (lit "error_rename_stopped") []
      else
        let! title := get_string (lit "rename_dialog_title") None [] in
        let! prompt := get_string (lit "rename_dialog_prompt") None
                         [(lit "old_name", Py.to_str old_name)] in
        emit (AskString title prompt old_name) >>>
        if nothing_to_rename reply old_name then ret tt
        else
          let new_name := default [] reply in
          if Text.contains [Text.SPACE] new_name then
            showerror (lit "error_rename_no_space") []
          else if bool_decide (VStr new_name ∈ current_names w) then
            showerror (lit "error_rename_duplicate") [(lit "new_name", new_name)]
          else
            let! title := get_string (lit "rename_confirm_title") None [] in
            let! message := get_string (lit "rename_confirm_message") None
                              [(lit "old_name", Py.to_str old_name);
                               (lit "new_name", new_name)] in
            emit (AskYesNo title message) >>>
            if negb confirmed then ret tt
            else
              show_progress_window >>>
              emit (ThreadStart old_name new_name)
  end.

(** [os.remove(path)] and [os.makedirs(path, exist_ok=True)]. *)
Definition remove (path : str) : M unit :=
  emit (Remove path) >>>
  let! w := get in
  match os_remove path (host w) with
  | Some s => modify (set_host s)
  | None => raise OSError
  end.

Definition makedirs (path : str) : M unit :=
  emit (Makedirs path) >>>
  let! w := get in
  match os_makedirs path (host w) with
  | Some s => modify (set_host s)
  | None => raise OSError
  end.

(** [result and result.startswith("Error:")]. *)
Definition is_error (result : str) : bool :=
  match result with
  | [] => false
  | _ :: _ => Text.startswith result (lit "Error:")
  end.

(** [os.path.join(tempfile.gettempdir(), f"{old_name}_export.tar")]. *)
Definition export_path (w : App) (old_name : value) : str :=
  path_join [gettempdir (host w); Py.to_str old_name ++ lit "_export.tar"].

(** [_rename_worker(old_name, new_name)]. *)
Definition _rename_worker (old_name : value) (new_name : str) : M unit :=
  let! w := get in
  let temp_dir := gettempdir (host w) in
  let export_file := path_join [temp_dir; Py.to_str old_name ++ lit "_export.tar"] in
  let! result := run_command [VStr (lit "wsl"); VStr (lit "--export"); old_name; VStr export_file] in
  if is_error result then
    modify (set_rename_result (Some (lit "Export failed:" ++ [Text.LF] ++ result)))
  else
    let! result := run_command [VStr (lit "wsl"); VStr (lit "--unregister"); old_name] in
    if is_error result then
      modify (set_rename_result (Some (lit "Unregister failed:" ++ [Text.LF] ++ result))) >>>
      remove export_file
    else
      let! w := get in
      let docs_path := path_join [expanduser_home (host w); lit "Documents"] in
      let import_dir := path_join [docs_path; lit "WSL_Distros"; new_name] in
      makedirs import_dir >>>
      let! result := run_command [VStr (lit "wsl"); VStr (lit "--import"); VStr new_name;
                                  VStr import_dir; VStr export_file] in
      if is_error result then
        modify (set_rename_result (Some (lit "Import failed:" ++ [Text.LF] ++ result))) >>>
        remove export_file
      else
        remove export_file >>>
        let! message := get_string (lit "rename_success_message") None
                          [(lit "new_name", new_name)] in
        modify (set_rename_result (Some message)).

(** The thread that runs the worker: an exception ends the thread and
    reaches nobody. *)
Definition rename_thread (old_name : value) (new_name : str) : M unit :=
  fun w => (Returns tt, exec (_rename_worker old_name new_name) w).

(** ["failed" in self.rename_result.lower()]. *)
Definition says_failed (message : str) : bool :=
  Text.contains (lit "failed") (Py.lower py message).

(** [check_rename_status()], with [is_alive] what
    [self.rename_thread.is_alive()] answers. *)
Definition check_rename_status (is_alive : bool) : M unit :=
  if is_alive then emit (After 100)
  else
    emit ProgressDestroy >>>
    let! w := get in
    match rename_result w with
    | Some message =>
        if says_failed message then
          let! title := get_string (lit "error_title") None [] in
          emit (ShowError title message)
        else
          emit (ShowInfo (lit "Success") message)
    | None => ret tt
    end >>>
    populate_wsl_list.

(** *** The other lifecycle operations *)

Context `{Console S}.

(** The [try] block of [open_terminal] and [start_distro] up to the launch:
    [true] when [subprocess.Popen] launched the process, [false] when its
    [FileNotFoundError] was caught. An argument that is no text is a
    [TypeError], which nobody catches. *)
Definition launch (command : list value) : M bool :=
  match argv command with
  | None => raise TypeError
  | Some args =>
      let! w := get in
      let (result, s) := subprocess_Popen args (host w) in
      modify (set_host s) >>>
      match result with
      | Launched => ret true
      | NoExecutable => ret false
      | LaunchFailure e => raise e
      end
  end.

(** [["wsl", "-d", distro_name, "--cd", "~"]]. *)
Definition shell_command (distro_name : value) : list value :=
  [VStr (lit "wsl"); VStr (lit "-d"); distro_name; VStr (lit "--cd"); VStr (lit "~")].

(** [open_terminal()]. *)
Definition open_terminal : M unit :=
  let! w := get in
  match selected w with
  | None => ret tt
  | Some item =>
      let '(distro_name, _, _) := item_values item in
      let! started := launch (shell_command distro_name) in
      if started then ret tt
      else showerror (lit "error_wsl_not_found") []
  end.

(** [start_distro()]. The refresh is left to the timer: [After 1500]. *)
Definition start_distro : M unit :=
  let! w := get in
  match selected w with
  | None => ret tt
  | Some item =>
      let '(distro_name, _, _) := item_values item in
      let! started := launch (shell_command distro_name) in
      if started then emit (After 1500)
      else showerror (lit "error_wsl_not_found") []
  end.

(** [terminate_distro()], with [confirmed] the answer to the question. *)
Definition terminate_distro (confirmed : bool) : M unit :=
  let! w := get in
  match selected w with
  | None => ret tt
  | Some item =>
      let '(distro_name, _, _) := item_values item in
      let! title := get_string (lit "confirm_stop_title") None [] in
      let! message := get_string (lit "confirm_stop_message") None
                        [(lit "distro_name", Py.to_str distro_name)] in
      emit (AskYesNo title message) >>>
      if confirmed then
        run_command [VStr (lit "wsl"); VStr (lit "--terminate"); distro_name] >>>
        populate_wsl_list
      else ret tt
  end.

(** [shutdown_all()], with [confirmed] the answer to the question. *)
Definition shutdown_all (confirmed : bool) : M unit :=
  let! title := get_string (lit "confirm_shutdown_title") None [] in
  let! message := get_string (lit "confirm_shutdown_message") None [] in
  emit (AskYesNo title message) >>>
  if confirmed then
    run_command [VStr (lit "wsl"); VStr (lit "--shutdown")] >>>
    populate_wsl_list
  else ret tt.

End Application.

(** ** A reference machine

    A small host to run the methods on: a file system that knows which
    paths exist, and a [wsl] that keeps the registered distributions (all
    stopped, version 2), refuses to unregister the ones in [locked], and is
    missing altogether when [wsl_present] is off. *)

Record machine := Machine {
  files : list str;
  registered : list str;
  locked : list str;
  wsl_present : bool
}.

Definition listing_of (names : list str) : str :=
  lit "  NAME      STATE           VERSION" ++ [Text.LF]
  ++ concat (map (fun n => lit "  " ++ n ++ lit "    Stopped         2" ++ [Text.LF]) names).

Definition member (x : str) (l : list str) : bool := bool_decide (x ∈ l).

Definition without (x : str) (l : list str) : list str :=
  List.filter (fun y => negb (bool_decide (y = x))) l.

Definition machine_run (command : list str) (m : machine) : process * machine :=
  if negb (wsl_present m) then (FileNotFoundError, m)
  else
    match command with
    | [_; flag] =>
        if bool_decide (flag = lit "--shutdown") then (Completed [], m)
        else (CalledProcessError (lit "Invalid command line"), m)
    | [_; flag; a] =>
        if bool_decide (flag = lit "--list") then (Completed (listing_of (registered m)), m)
        else if bool_decide (flag = lit "--unregister") then
          if member a (registered m) && negb (member a (locked m))
          then (Completed [], Machine (files m) (without a (registered m)) (locked m) true)
          else (CalledProcessError (lit "Access is denied."), m)
        else (CalledProcessError (lit "Invalid command line"), m)
    | [_; flag; a; path] =>
        if bool_decide (flag = lit "--export") && member a (registered m)
        then (Completed [], Machine (path :: files m) (registered m) (locked m) true)
        else (CalledProcessError (lit "There is no distribution with the supplied name."), m)
    | [_; flag; a; dir; path] =>
        if bool_decide (flag = lit "--import") && member path (files m)
           && negb (member a (registered m))
        then (Completed [], Machine (files m) (registered m ++ [a]) (locked m) true)
        else (CalledProcessError (lit "The operation failed."), m)
    | _ => (CalledProcessError (lit "Invalid command line"), m)
    end.

Definition machine_remove (path : str) (m : machine) : option machine :=
  if member path (files m)
  then Some (Machine (without path (files m)) (registered m) (locked m) (wsl_present m))
  else None.

(** [os.path.join] of the reference machine, on the parts it is given
    there: a directory that does not end in a separator, followed by plain
    names (no drive, no separator in front), which [ntpath.join] puts one
    after the other with a backslash between them. *)
Fixpoint join_with (sep : str) (parts : list str) : str :=
  match parts with
  | [] => []
  | [p] => p
  | p :: rest => p ++ sep ++ join_with sep rest
  end.

#[global] Instance machine_host : Host machine := {
  subprocess_run := machine_run;
  os_remove := machine_remove;
  os_makedirs := fun _ m => Some m;
  gettempdir := fun _ => lit "C:\Temp";
  expanduser_home := fun _ => lit "C:\Users\me";
  path_join := join_with (lit "\")
}.

(** Consoles open on the reference machine whenever the tool is there. *)
#[global] Instance machine_console : Console machine := {
  subprocess_Popen := fun _ m =>
    if wsl_present m then (Launched, m) else (NoExecutable, m)
}.

(** A runtime that knows nothing beyond the fragments the model computes
    in: above U+00FF no character is alphanumeric and none has a case. The
    examples below stay inside the fragments. *)
Definition bare_lower (s : str) (i : nat) : str :=
  match s !! i with
  | Some c => [c]
  | None => []
  end.

Definition bare_python : Python := {|
  uni_isalnum := fun _ => false;
  uni_isalnum_isspace := fun _ _ => eq_refl;
  uni_lower := bare_lower;
  uni_lower_foreign := ltac:(
    intros s i c Hc Hbig _ _; unfold bare_lower; rewrite Hc;
    split; [discriminate | repeat constructor; apply N.ltb_ge; lia]);
  uni_int := fun _ => None;
  uni_format := fun _ _ => Raises ValueError
|}.

(** The window at start-up over a machine: no rows, no selection, an empty
    string table. *)
Definition at_startup (m : machine) : App :=
  MkApp m ∅ [] None (Buttons disabled disabled disabled disabled) [] None [].

(** Two distributions, [Debian] locked against unregistration. *)
Definition example_machine : machine :=
  Machine [] [lit "Ubuntu"; lit "Debian"] [lit "Debian"] true.

(** The window after its first refresh on that machine, with the first row
    (Ubuntu) selected. *)
Definition example_window : App :=
  set_selection (Some 0)
    (exec (populate_wsl_list bare_python) (at_startup example_machine)).

(** The same machine under a window whose string table has an English
    message of success. *)
Definition english_window : App :=
  MkApp example_machine
        {[ lit "rename_success_message" := lit "Renamed to {new_name}." ]}
        [] None (Buttons disabled disabled disabled disabled) [] None [].

(** ** Vocabulary of the properties *)

(** The class [[A-Za-z0-9._-]] and the pattern [^[A-Za-z0-9._-]*$] on a
    name without line breaks. *)
Definition in_name_class (c : char) : bool :=
  Text.is_ascii_word c || N.eqb c Text.DOT || N.eqb c Text.HYPHEN.

Definition matches_name_pattern (s : str) : bool := forallb in_name_class s.

(** The events a method added to the trace between two states. *)
Definition since {S} (before after : @App S) : list event :=
  drop (length (trace before)) (trace after).

(** The listing command, and whether a run of it gave nothing to show. *)
Definition list_command : list str := [lit "wsl"; lit "--list"; lit "--verbose"].

Definition blank (s : str) : bool :=
  match Text.strip s with [] => true | _ :: _ => false end.

Definition list_failed (r : process) : bool :=
  match r with
  | Completed stdout => Text.startswith stdout (lit "Error:") || blank stdout
  | _ => true
  end.

(** A step of the rename failed: [run_command] gave an error text, or raised. *)
Definition step_failed (r : outcome str) : bool :=
  match r with
  | Returns result => is_error result
  | Raises _ => true
  end.

Definition export_command {S} `{Host S} (w : @App S) (old_name : value) : list value :=
  [VStr (lit "wsl"); VStr (lit "--export"); old_name; VStr (export_path w old_name)].

Definition unregister_command (old_name : value) : list value :=
  [VStr (lit "wsl"); VStr (lit "--unregister"); old_name].

Definition is_export_run (ev : event) : bool :=
  match ev with
  | Run [tool; flag; _; _] => bool_decide (tool = lit "wsl") && bool_decide (flag = lit "--export")
  | _ => false
  end.

(** The requests [rename_distro] turns down, on the row selected and the
    answer of the name dialog. *)
Inductive violation {S} (py : Python) (w : @App S) (item : values) : option str -> Prop :=
| not_stopped reply :
    state item <> lit "Stopped" -> violation py w item reply
| cancelled :
    violation py w item None
| empty_name new_name :
    Text.strip new_name = [] -> violation py w item (Some new_name)
| same_name new_name :
    Py.convert_stringval py (name item) = VStr new_name ->
    violation py w item (Some new_name)
| has_space_char new_name :
    Text.SPACE ∈ new_name -> violation py w item (Some new_name)
| duplicate_name new_name :
    VStr new_name ∈ current_names py w -> violation py w item (Some new_name).

(** Landmarks on the way of a method through the window. *)
Section Landmarks.

Context {S : Type}.
Variable py : Python.

Implicit Types w : @App S.

(** The state [run_command] leaves when the process was started. *)
Definition ran (args : list str) (s : S) w : App := log (Run args) (set_host s w).

Definition all_disabled : buttons := Buttons disabled disabled disabled disabled.

(** The window once [on_item_select] found nothing selected. *)
Definition deselected w : App :=
  set_shortcut_command_var [] (set_widgets all_disabled w).

(** The buttons once [on_item_select] found a row selected. *)
Definition buttons_for (stopped : bool) : buttons :=
  if stopped then Buttons normal normal normal disabled
  else Buttons normal disabled disabled normal.

(** The window once [populate_wsl_list] deleted the rows. *)
Definition cleared w : App := set_selection None (set_tree [] w).

(** The window after the rows of [output] were inserted and
    [on_item_select] ran on the empty selection. *)
Definition shown (output : str) w : App :=
  deselected (set_tree (tree w ++ parse_listing py output) w).

(** [after] differs from [before] by dialogs at most: the host, the rows,
    the selection and the stored result are the same, and the events added
    are no tool invocation, no file system call and no thread. *)
Definition untouched (before after : @App S) : Prop :=
  host after = host before /\ tree after = tree before
  /\ selection after = selection before
  /\ rename_result after = rename_result before
  /\ exists evs, trace after = trace before ++ evs
                 /\ forallb (fun ev => negb (is_external ev)) evs = true.

(** A method that leaves every window [untouched]. *)
Definition quiet {A} (m : @M S A) : Prop := forall w, untouched w (snd (m w)).

(** A method that, besides dialogs, adds at most the event [ev], and that
    as the last thing it does. *)
Definition quiet_until {A} (ev : event) (m : @M S A) : Prop :=
  forall w, exists pre,
    forallb (fun e => negb (is_external e)) pre = true
    /\ (trace (snd (m w)) = trace w ++ pre
        \/ trace (snd (m w)) = trace w ++ pre ++ [ev]).

End Landmarks.


(** Two whitespace characters in a row somewhere in [s]: what
    [re.split(r'\s{2,}', s)] splits at. *)
Fixpoint has_gap (s : str) : bool :=
  match s with
  | c :: (d :: _) as t => (Text.isspace c && Text.isspace d) || has_gap t
  | _ => false
  end.

(** The event [run_command] adds for a command: its [Run], once the
    arguments are all text. *)
Definition run_events (command : list value) : list event :=
  match argv command with
  | Some args => [Run args]
  | None => []
  end.

(** The commands of the lifecycle operations. *)
Definition terminate_command (distro_name : value) : list value :=
  [VStr (lit "wsl"); VStr (lit "--terminate"); distro_name].

Definition shutdown_command : list value :=
  [VStr (lit "wsl"); VStr (lit "--shutdown")].

Definition is_run (ev : event) : bool :=
  match ev with
  | Run _ => true
  | _ => false
  end.

(** A template without braces: no field, no escape. *)
Definition brace_free (template : str) : bool :=
  forallb (fun c => negb (N.eqb c 123) && negb (N.eqb c 125)) template.

(** The import step of the worker: the directory it imports into, seen
    from the window the unregister step left, and its command. *)
Definition import_dir {S} `{Host S} (w : @App S) (new_name : str) : str :=
  path_join [path_join [expanduser_home (host w); lit "Documents"];
             lit "WSL_Distros"; new_name].

Definition import_command (new_name dir archive : str) : list value :=
  [VStr (lit "wsl"); VStr (lit "--import"); VStr new_name; VStr dir; VStr archive].

(** Everything the worker can do to the outside, in the order it does it. *)
Definition worker_plan {S} `{Host S} (w : @App S) (old_name : value)
    (new_name dir : str) : list event :=
  run_events (export_command w old_name)
  ++ run_events (unregister_command old_name)
  ++ [Makedirs dir]
  ++ run_events (import_command new_name dir (export_path w old_name))
  ++ [Remove (export_path w old_name)].

(** The message boxes among the events. *)
Definition is_dialog (ev : event) : bool :=
  match ev with
  | ShowError _ _ | ShowInfo _ _ => true
  | _ => false
  end.

(** [word] spells [target], a word in small letters, up to case: each of its
    characters is the small letter of [target] at that place, or the capital
    32 below it. *)
Definition spells (target word : str) : Prop :=
  Forall2 (fun c d => c = d \/ (c + 32)%N = d) word target.

(** The message holds the word ["failed"], in any mix of cases. *)
Definition mentions_failed (message : str) : Prop :=
  exists pre word post,
    message = pre ++ word ++ post /\ spells (lit "failed") word.

(** A word that only its own letters and their capitals lower to: small
    ASCII letters, none of them [k], which U+212A lowers to, and not ending
    in [i], with which the lower case of U+0130 starts. *)
Fixpoint foldable (target : str) : bool :=
  match target with
  | [] => true
  | d :: rest =>
      Text.is_ascii_lower d && negb (N.eqb d 107)
      && match rest with
         | [] => negb (N.eqb d 105)
         | _ :: _ => true
         end
      && foldable rest
  end.

(** The texts of the examples. *)
Definition row (n s v : string) : values := Values (lit n) (lit s) (lit v).

Definition cafe : str := lit "caf" ++ [233%N].

Definition line_marked : str := lit "* mydistro   Running   2".
Definition line_unmarked : str := lit "mydistro   Running   2".

Definition listing_example : str :=
  lit "NAME STATE VERSION" ++ [Text.LF]
  ++ lit "  Ubuntu    Stopped    2" ++ [Text.LF]
  ++ lit "* Debian     Running    1" ++ [Text.LF].

Definition listing_example_swapped : str :=
  lit "NAME STATE VERSION" ++ [Text.LF]
  ++ lit "* Ubuntu    Stopped    2" ++ [Text.LF]
  ++ lit "  Debian     Running    1" ++ [Text.LF].

(** ** Properties of the text functions *)

Module TextFacts.

Import Text.

Lemma lstrip_with_snoc p l c :
  lstrip_with p (l ++ [c]) =
  match lstrip_with p l with
  | [] => if p c then [] else [c]
  | r => r ++ [c]
  end.
Proof.
  induction l as [|a l IH]; simpl.
  - destruct (p c); reflexivity.
  - destruct (p a); [exact IH | reflexivity].
Qed.

Lemma rstrip_with_cons p c t :
  rstrip_with p (c :: t) =
  match rstrip_with p t with
  | [] => if p c then [] else [c]
  | r => c :: r
  end.
Proof.
  unfold rstrip_with. simpl rev at 2.
  rewrite lstrip_with_snoc.
  destruct (lstrip_with p (rev t)) as [|a r] eqn:E.
  - simpl. destruct (p c); reflexivity.
  - remember (a :: r) as l eqn:El.
    rewrite rev_app_distr. change (rev [c] ++ rev l) with (c :: rev l).
    destruct (rev l) eqn:Er; [|reflexivity].
    apply (f_equal (@length char)) in Er. rewrite length_rev, El in Er. discriminate.
Qed.

(** Stripping the left end and the right end commute. *)
Lemma lstrip_rstrip p s :
  lstrip_with p (rstrip_with p s) = rstrip_with p (lstrip_with p s).
Proof.
  induction s as [|c t IH]; [reflexivity|].
  rewrite rstrip_with_cons. simpl lstrip_with at 2.
  destruct (p c) eqn:Pc.
  - rewrite <- IH.
    destruct (rstrip_with p t) as [|a r]; simpl; [reflexivity|].
    rewrite Pc. reflexivity.
  - rewrite rstrip_with_cons.
    destruct (rstrip_with p t) as [|a r]; simpl; rewrite Pc; reflexivity.
Qed.

Lemma strip_cons_visible c t :
  isspace c = false -> strip (c :: t) = c :: rstrip_with isspace t.
Proof.
  intros Hc. unfold strip. simpl. rewrite Hc.
  rewrite rstrip_with_cons.
  destruct (rstrip_with isspace t); [rewrite Hc|]; reflexivity.
Qed.

(** A property of the code points below 256, decided by running through them. *)
Lemma below_256 (P : char -> bool) :
  forallb P (map N.of_nat (seq 0 256)) = true ->
  forall c, (c < 256)%N -> P c = true.
Proof.
  intros Hall c Hc.
  rewrite forallb_forall in Hall. apply Hall.
  apply in_map_iff. exists (N.to_nat c). split; [apply N2Nat.id|].
  apply in_seq. lia.
Qed.

End TextFacts.

(** ** Properties of the listing parser *)

Section Parser.

Variable py : Python.

Lemma is_word_below_256 c :
  (c < 256)%N -> Py.is_word py c = true -> Text.isspace c = false /\ c <> Text.NUL.
Proof.
  intros Hc Hw.
  assert (Hlow : (if N.ltb c 128 then Text.is_ascii_word c else Text.is_latin1_alnum c) = true).
  { revert Hw. unfold Py.is_word. destruct (N.ltb c 128); [tauto|].
    destruct (N.ltb_spec c 256); [tauto | lia]. }
  pose proof (TextFacts.below_256
    (fun c => implb (if N.ltb c 128 then Text.is_ascii_word c else Text.is_latin1_alnum c)
                    (negb (Text.isspace c) && negb (N.eqb c Text.NUL)))) as Hall.
  specialize (Hall eq_refl c Hc). cbv beta in Hall.
  rewrite Hlow in Hall. simpl in Hall.
  apply andb_true_iff in Hall as [Hs Hn].
  split.
  - now apply negb_true_iff.
  - apply negb_true_iff in Hn. now apply N.eqb_neq.
Qed.

(** No character of [\w] is whitespace or NUL. *)
Lemma is_word_visible c :
  Py.is_word py c = true -> Text.isspace c = false /\ c <> Text.NUL.
Proof.
  intros Hw. destruct (N.ltb_spec c 256) as [Hc|Hc].
  - now apply is_word_below_256.
  - split.
    + destruct (Text.isspace c) eqn:Hs; [|reflexivity].
      apply (uni_isalnum_isspace py) in Hs.
      revert Hw. unfold Py.is_word.
      destruct (N.ltb_spec c 128); [lia|].
      destruct (N.ltb_spec c 256); [lia|]. congruence.
    + unfold Text.NUL. lia.
Qed.

(** What [re.sub] keeps: word characters, dots and hyphens. *)
Lemma re_sub_nonword_keeps s c :
  c ∈ Py.re_sub_nonword py s ->
  c ∈ s /\ (Py.is_word py c = true \/ c = Text.DOT \/ c = Text.HYPHEN).
Proof.
  unfold Py.re_sub_nonword. rewrite !list_elem_of_In, filter_In.
  intros [Hin Hk]. split; [exact Hin|].
  apply orb_true_iff in Hk as [Hk|Hk]; [apply orb_true_iff in Hk as [Hk|Hk]|].
  - now left.
  - right; left. now apply N.eqb_eq.
  - right; right. now apply N.eqb_eq.
Qed.

Lemma is_word_ascii c :
  (c < 128)%N -> Py.is_word py c = Text.is_ascii_word c.
Proof.
  intros Hc. unfold Py.is_word. destruct (N.ltb_spec c 128); [reflexivity | lia].
Qed.

(** The rows of a listing come from its lines. *)
Lemma parse_listing_row output v :
  v ∈ parse_listing py output -> exists line, parse_line py line = Some v.
Proof.
  unfold parse_listing. rewrite list_elem_of_omap.
  intros (line & _ & Hv). now exists line.
Qed.

(** The name of a row is a sanitized field. *)
Lemma parse_line_name line v :
  parse_line py line = Some v -> exists p0, name v = Py.re_sub_nonword py p0.
Proof.
  unfold parse_line.
  destruct (Text.lstrip_chars _ _); [discriminate|].
  match goal with |- split_fields py ?l = _ -> _ => generalize l end.
  intros processed. unfold split_fields.
  destruct (Text.re_split_spaces processed) as [|p0 [|p1 [|p2 [|? ?]]]]; try discriminate.
  intros [= <-]. now exists p0.
Qed.

(** A line that begins with the marker is split as the text after the
    marker, stripped. *)
Lemma parse_line_marked rest :
  parse_line py (Text.STAR :: rest) = split_fields py (Text.strip rest).
Proof.
  unfold parse_line.
  rewrite TextFacts.strip_cons_visible by reflexivity.
  change (Text.lstrip_chars [Text.BOM] (Text.STAR :: ?t)) with (Text.STAR :: t).
  cbv iota.
  change (Text.startswith (Text.STAR :: ?t) [Text.STAR]) with true.
  cbv iota. change (drop 1 (Text.STAR :: ?t)) with t.
  unfold Text.lstrip, Text.strip.
  now rewrite TextFacts.lstrip_rstrip.
Qed.

End Parser.

(** *** The default marker (C2, C3) *)

(** C2, counterexample: the claim has the parser record [isDefault = true]
    for the line ["* mydistro   Running   2"], but the row that line gives
    is the triple (mydistro, Running, 2) and nothing else, the very row the
    line without the marker gives: the parser keeps no default flag. *)
Lemma marker_leaves_no_flag :
  (forall py, parse_line py line_marked = Some (row "mydistro" "Running" "2"))
  /\ (forall py, parse_line py line_unmarked = parse_line py line_marked).
Proof.
  split; intros py; vm_compute; reflexivity.
Qed.

(** C2 (amended): for every line that begins with the marker [*], the
    parser removes the marker, and the blanks after it, before it splits
    the line into fields, and stores no default flag: the row is built from
    the text after the marker alone. In particular the line
    ["* mydistro   Running   2"] gives the row (mydistro, Running, 2). *)
Theorem marker_removed_before_split py rest :
  parse_line py (Text.STAR :: rest) = split_fields py (Text.strip rest)
  /\ parse_line py line_marked = Some (row "mydistro" "Running" "2").
Proof.
  split.
  - apply parse_line_marked.
  - change line_marked with (Text.STAR :: lit " mydistro   Running   2").
    rewrite parse_line_marked. vm_compute. reflexivity.
Qed.

(** C3, counterexample: the claim has the two instances differ in
    [isDefault]; the rows of the listing are the same when the marker stands
    on the other line, so the result tells nothing about the default. *)
Lemma listing_rows_ignore_marker :
  (forall py, parse_listing py listing_example = parse_listing py listing_example_swapped)
  /\ listing_example <> listing_example_swapped.
Proof.
  split.
  - intros py. vm_compute. reflexivity.
  - vm_compute. discriminate.
Qed.

(** C3 (amended): the listing of the example gives exactly two rows, in
    this order: (Ubuntu, Stopped, 2) and (Debian, Running, 1); the header
    line is dropped, and no default flag is part of a row. *)
Theorem listing_example_rows py :
  parse_listing py listing_example
  = [row "Ubuntu" "Stopped" "2"; row "Debian" "Running" "1"].
Proof.
  unfold parse_listing.
  assert (Hlines : listing_lines listing_example
                   = [lit "  Ubuntu    Stopped    2"; lit "* Debian     Running    1"])
    by (vm_compute; reflexivity).
  rewrite Hlines. cbn [omap list_omap].
  change (lit "* Debian     Running    1") with (Text.STAR :: lit " Debian     Running    1").
  rewrite parse_line_marked.
  vm_compute. reflexivity.
Qed.

(** *** Sanitized names (C4) *)

(** C4, counterexample: the name field [café] keeps its last letter,
    which [\w] matches, and so does not match [^[A-Za-z0-9._-]*$]. *)
Lemma accented_name_survives :
  (forall py, parse_line py (cafe ++ lit "   Stopped   2")
              = Some (Values cafe (lit "Stopped") (lit "2")))
  /\ matches_name_pattern cafe = false.
Proof.
  split; [intros py|]; vm_compute; reflexivity.
Qed.

(** C4 (amended): every character of a name the parser produces is a word
    character in the Unicode sense of [\w], a dot or a hyphen; whatever it
    holds of ASCII lies in [[A-Za-z0-9._-]], so every ASCII character outside
    that class, NUL and the control characters among them, is removed. *)
Theorem sanitized_name_characters py output :
  Forall (fun v =>
    Forall (fun c =>
      (Py.is_word py c = true \/ c = Text.DOT \/ c = Text.HYPHEN)
      /\ ((c < 128)%N -> in_name_class c = true)) (name v)
    /\ matches_name_pattern (List.filter Text.is_ascii (name v)) = true)
  (parse_listing py output).
Proof.
  apply Forall_forall. intros v Hv.
  apply parse_listing_row in Hv as [line Hline].
  apply parse_line_name in Hline as [p0 ->].
  assert (Hchars : forall c, c ∈ Py.re_sub_nonword py p0 ->
            (Py.is_word py c = true \/ c = Text.DOT \/ c = Text.HYPHEN)
            /\ ((c < 128)%N -> in_name_class c = true)).
  { intros c Hc. apply re_sub_nonword_keeps in Hc as [_ Hk].
    split; [exact Hk|]. intros Hlow. unfold in_name_class.
    destruct Hk as [Hw | [-> | ->]]; [|reflexivity|reflexivity].
    rewrite is_word_ascii in Hw by exact Hlow. now rewrite Hw. }
  split.
  - apply Forall_forall. exact Hchars.
  - unfold matches_name_pattern. apply forallb_forall. intros c Hc.
    apply filter_In in Hc as [Hc Hlow].
    apply Hchars; [now apply list_elem_of_In|].
    now apply N.ltb_lt.
Qed.

(** ** Lower case and the search for a word *)

Module LowerFacts.

Import Text.

Lemma contains_unfold needle s :
  contains needle s
  = startswith s needle
    || match s with
       | [] => false
       | _ :: t => contains needle t
       end.
Proof. destruct s; reflexivity. Qed.

Lemma startswith_spec needle s :
  startswith s needle = true <-> exists post, s = needle ++ post.
Proof.
  revert s. induction needle as [|p ps IH]; intros s; simpl.
  - split; [intros _; now exists s | reflexivity].
  - destruct s as [|c cs].
    + split; [discriminate | intros [post Hpost]; discriminate].
    + rewrite andb_true_iff, N.eqb_eq, IH. split.
      * intros [-> [post ->]]. now exists post.
      * intros [post Hpost]. injection Hpost as -> ->. split; [reflexivity | now exists post].
Qed.

(** [needle in s] holds exactly when [needle] is a substring of [s]. *)
Lemma contains_spec needle s :
  contains needle s = true <-> exists pre post, s = pre ++ needle ++ post.
Proof.
  split.
  - induction s as [|c t IH]; rewrite contains_unfold, orb_true_iff.
    + intros [Hs | Hf]; [|discriminate].
      apply startswith_spec in Hs as [post Hpost]. now exists [], post.
    + intros [Hs | Ht].
      * apply startswith_spec in Hs as [post Hpost]. now exists [], post.
      * destruct (IH Ht) as (pre & post & ->). now exists (c :: pre), post.
  - intros (pre & post & ->). induction pre as [|c pre IH]; rewrite contains_unfold.
    + apply orb_true_iff. left. apply startswith_spec. now exists post.
    + apply orb_true_iff. right. exact IH.
Qed.

Lemma contains_nil s : contains [] s = true.
Proof. now rewrite contains_unfold. Qed.

(** An occurrence in [q ++ r] starts at a character of [q] or lies in [r]. *)
Lemma contains_skip n0 n q r :
  contains (n0 :: n) (q ++ r) = true ->
  n0 ∈ q \/ contains (n0 :: n) r = true.
Proof.
  induction q as [|y q IH]; [now right|].
  cbn [app]. rewrite contains_unfold, orb_true_iff.
  intros [Hs | Hq].
  - left. cbn [startswith] in Hs. apply andb_true_iff in Hs as [Hy _].
    apply N.eqb_eq in Hy as ->. left.
  - destruct (IH Hq) as [Hin | Hr]; [left; now right | now right].
Qed.

(** An occurrence in [p ++ r] starts at the head of [p], at a later
    character of [p], or lies in [r]. *)
Lemma contains_app_cases n0 n p r :
  contains (n0 :: n) (p ++ r) = true ->
  startswith (p ++ r) (n0 :: n) = true
  \/ n0 ∈ tail p
  \/ contains (n0 :: n) r = true.
Proof.
  destruct p as [|y0 q]; [now right; right|].
  cbn [app tail]. rewrite contains_unfold, orb_true_iff.
  intros [Hs | Hq]; [now left | right].
  now apply contains_skip.
Qed.

End LowerFacts.

Section Lowering.

Import Text LowerFacts.

Variable py : Python.

Local Open Scope N_scope.

Lemma foldable_cons d n :
  foldable (d :: n) = true ->
  (97 <= d <= 122 /\ d <> 107 /\ (n = [] -> d <> 105)) /\ foldable n = true.
Proof.
  cbn [foldable]. rewrite !andb_true_iff. intros [[[Hl Hk] Hi] Hn].
  split; [|exact Hn].
  unfold is_ascii_lower in Hl. apply andb_true_iff in Hl as [Hlo Hhi].
  apply N.leb_le in Hlo, Hhi. apply negb_true_iff, N.eqb_neq in Hk.
  repeat split; try assumption.
  intros ->. now apply negb_true_iff, N.eqb_neq in Hi.
Qed.

Lemma lower_from_app s i a b :
  Py.lower_from py s i (a ++ b)
  = Py.lower_from py s i a ++ Py.lower_from py s (i + length a) b.
Proof.
  revert i. induction a as [|c a IH]; intros i; cbn [app Py.lower_from length].
  - now rewrite Nat.add_0_r.
  - rewrite IH, <- app_assoc. do 3 f_equal. lia.
Qed.

(** A word that spells a foldable target lowers to it, wherever it stands. *)
Lemma lower_from_spells s i target word :
  foldable target = true -> spells target word ->
  Py.lower_from py s i word = target.
Proof.
  intros Hf Hw. revert i Hf.
  induction Hw as [|c d word target Hcd Hw IH]; intros i Hf; [reflexivity|].
  apply foldable_cons in Hf as [(Hd & _ & _) Hf].
  cbn [Py.lower_from]. rewrite (IH _ Hf).
  unfold Py.lower_char, Py.ascii_lower, is_ascii_upper.
  destruct Hcd as [-> | <-].
  - replace (d <? 128) with true by (symmetry; apply N.ltb_lt; lia).
    replace (65 <=? d) with true by (symmetry; apply N.leb_le; lia).
    replace (d <=? 90) with false by (symmetry; apply N.leb_gt; lia).
    reflexivity.
  - replace (c <? 128) with true by (symmetry; apply N.ltb_lt; lia).
    replace (65 <=? c) with true by (symmetry; apply N.leb_le; lia).
    replace (c <=? 90) with true by (symmetry; apply N.leb_le; lia).
    reflexivity.
Qed.

(** The lower case of a character outside ASCII holds no small ASCII letter
    but the [i] that the lower case of U+0130 starts with and the [k] of
    U+212A. *)
Lemma lower_char_foreign s i c :
  s !! i = Some c -> 128 <= c ->
  exists y q, Py.lower_char py s i c = y :: q
    /\ (128 <= y \/ y = 107 \/ (y = 105 /\ q <> []))
    /\ Forall (fun z => 128 <= z) q.
Proof.
  intros Hc Hbig. unfold Py.lower_char.
  replace (c <? 128) with false by (symmetry; apply N.ltb_ge; lia).
  destruct (c <? 256) eqn:H256.
  { exists (Py.latin1_lower c), []. split; [reflexivity|]. split; [|constructor].
    left. unfold Py.latin1_lower. destruct (_ && _); lia. }
  apply N.ltb_ge in H256.
  destruct (c =? 304) eqn:H304.
  { exists 105, [775]. split; [reflexivity|]. split.
    - right; right. split; [reflexivity | discriminate].
    - repeat constructor. lia. }
  destruct (c =? 8490) eqn:H8490.
  { exists 107, []. split; [reflexivity|]. split; [now right; left | constructor]. }
  apply N.eqb_neq in H304, H8490.
  destruct (uni_lower_foreign py s i c Hc H256 H304 H8490) as [Hne Hall].
  destruct (uni_lower py s i) as [|y q]; [contradiction|].
  exists y, q. split; [reflexivity|].
  assert (Hge : Forall (fun z => 128 <= z) (y :: q)).
  { eapply Forall_impl; [exact Hall|]. intros z Hz. now apply N.ltb_ge in Hz. }
  inversion Hge; subst. split; [now left | assumption].
Qed.

Lemma drop_cons_inv (s : str) i c t :
  drop i s = c :: t -> s !! i = Some c /\ drop (S i) s = t.
Proof.
  intros Hd. split.
  - pose proof (lookup_drop s i 0) as Hl.
    rewrite Hd, Nat.add_0_r in Hl. symmetry. exact Hl.
  - pose proof (drop_drop s 1 i) as Hl.
    rewrite Hd, Nat.add_1_r in Hl. symmetry. exact Hl.
Qed.

(** Where the lower case of a text starts with a foldable word, the text
    starts with a spelling of that word. *)
Lemma startswith_lower_from s target :
  foldable target = true ->
  forall i rest, drop i s = rest ->
  startswith (Py.lower_from py s i rest) target = true ->
  exists word post, rest = word ++ post /\ spells target word.
Proof.
  induction target as [|d target IH]; intros Hf i rest Hdrop Hs.
  { exists [], rest. split; [reflexivity | constructor]. }
  apply foldable_cons in Hf as [(Hd & Hk & Hi) Hf].
  destruct rest as [|c t]; [discriminate|].
  apply drop_cons_inv in Hdrop as [Hc Hdrop].
  cbn [Py.lower_from] in Hs.
  destruct (N.lt_ge_cases c 128) as [Hlow | Hbig].
  - unfold Py.lower_char in Hs.
    replace (c <? 128) with true in Hs by (symmetry; apply N.ltb_lt; lia).
    cbn [app startswith] in Hs. apply andb_true_iff in Hs as [Hcd Hs].
    apply N.eqb_eq in Hcd.
    destruct (IH Hf _ _ Hdrop Hs) as (word & post & -> & Hw).
    exists (c :: word), post. split; [reflexivity|].
    constructor; [|exact Hw].
    unfold Py.ascii_lower in Hcd. destruct (is_ascii_upper c); [now right | now left].
  - exfalso.
    destruct (lower_char_foreign s i c Hc Hbig) as (y & q & Hp & Hy & Hq).
    rewrite Hp in Hs. cbn [app startswith] in Hs.
    apply andb_true_iff in Hs as [Hyd Hs]. apply N.eqb_eq in Hyd. subst y.
    destruct Hy as [Hy | [Hy | [Hy Hne]]]; [lia | lia |].
    destruct target as [|e target]; [now apply Hi|].
    destruct q as [|z q]; [contradiction|].
    apply foldable_cons in Hf as [(He & _ & _) _].
    cbn [app startswith] in Hs. apply andb_true_iff in Hs as [Hze _].
    apply N.eqb_eq in Hze. subst z. inversion Hq; subst. lia.
Qed.

(** Where the lower case of a text holds a foldable word, the text holds a
    spelling of that word. *)
Lemma contains_lower_from s target :
  foldable target = true ->
  forall rest i, drop i s = rest ->
  contains target (Py.lower_from py s i rest) = true ->
  exists pre word post, rest = pre ++ word ++ post /\ spells target word.
Proof.
  intros Hf.
  destruct target as [|n0 n].
  { intros rest i _ _. exists [], [], rest. split; [reflexivity | constructor]. }
  pose proof (foldable_cons _ _ Hf) as [(Hn0 & _ & _) _].
  induction rest as [|c t IH]; intros i Hdrop Hc.
  { rewrite contains_unfold in Hc. discriminate. }
  pose proof (drop_cons_inv _ _ _ _ Hdrop) as [Hat Hdrop'].
  cbn [Py.lower_from] in Hc.
  apply contains_app_cases in Hc as [Hs | [Hin | Hr]].
  - destruct (startswith_lower_from s _ Hf i (c :: t) Hdrop Hs) as (word & post & Hrest & Hw).
    now exists [], word, post.
  - exfalso.
    destruct (N.lt_ge_cases c 128) as [Hlow | Hbig].
    + unfold Py.lower_char in Hin.
      replace (c <? 128) with true in Hin by (symmetry; apply N.ltb_lt; lia).
      cbn [tail] in Hin. now apply elem_of_nil in Hin.
    + destruct (lower_char_foreign s i c Hat Hbig) as (y & q & Hp & _ & Hq).
      rewrite Hp in Hin. cbn [tail] in Hin.
      rewrite Forall_forall in Hq. specialize (Hq _ Hin). lia.
  - destruct (IH _ Hdrop' Hr) as (pre & word & post & -> & Hw).
    now exists (c :: pre), word, post.
Qed.

(** [target in s.lower()], for a foldable target: [s] holds the word in some
    mix of cases. *)
Lemma contains_lower target s :
  foldable target = true ->
  contains target (Py.lower py s) = true
  <-> exists pre word post, s = pre ++ word ++ post /\ spells target word.
Proof.
  intros Hf. split.
  - apply (contains_lower_from s target Hf s 0%nat). reflexivity.
  - intros (pre & word & post & -> & Hw).
    unfold Py.lower. rewrite !lower_from_app, (lower_from_spells _ _ _ _ Hf Hw).
    apply contains_spec. eauto.
Qed.

(** ["failed" in message.lower()]: the message holds the word in some mix
    of cases. *)
Lemma says_failed_mentions message :
  says_failed py message = true <-> mentions_failed message.
Proof. apply contains_lower. reflexivity. Qed.

(** The three messages of failure the worker stores hold the word, whatever
    the error text that follows. *)
Lemma failure_messages_mention_failed (result : str) :
  mentions_failed (lit "Export failed:" ++ [Text.LF] ++ result)
  /\ mentions_failed (lit "Unregister failed:" ++ [Text.LF] ++ result)
  /\ mentions_failed (lit "Import failed:" ++ [Text.LF] ++ result).
Proof.
  assert (Hword : spells (lit "failed") (lit "failed")).
  { vm_compute. repeat (constructor; [now left|]). constructor. }
  split; [|split].
  - exists (lit "Export "), (lit "failed"), (lit ":" ++ [Text.LF] ++ result).
    split; [reflexivity | exact Hword].
  - exists (lit "Unregister "), (lit "failed"), (lit ":" ++ [Text.LF] ++ result).
    split; [reflexivity | exact Hword].
  - exists (lit "Import "), (lit "failed"), (lit ":" ++ [Text.LF] ++ result).
    split; [reflexivity | exact Hword].
Qed.

End Lowering.

(** ** Properties of the methods *)

Section Methods.

Context {S : Type} `{Host S}.
Variable py : Python.

Implicit Types (w : @App S) (ev : event).

(** *** The monad *)

Lemma bind_returns {A B} (m : M A) (k : A -> M B) w a w' :
  m w = (Returns a, w') -> bind m k w = k a w'.
Proof. intros E. unfold bind. now rewrite E. Qed.

Lemma bind_raises {A B} (m : M A) (k : A -> M B) w e w' :
  m w = (Raises e, w') -> bind m k w = (Raises e, w').
Proof. intros E. unfold bind. now rewrite E. Qed.

Lemma since_app w w' evs : trace w' = trace w ++ evs -> since w w' = evs.
Proof. intros E. unfold since. rewrite E. apply drop_app_length. Qed.

Lemma since_refl w : since w w = [].
Proof. apply since_app. now rewrite app_nil_r. Qed.

Lemma set_tree_same w : set_tree (tree w) w = w.
Proof. now destruct w. Qed.

(** *** [get_string] and [run_command] *)

Lemma get_string_eq key fallback kwargs w :
  get_string py key fallback kwargs w
  = (Py.format py (default (match fallback with None => key | Some f => f end)
                           (lang_data w !! key)) kwargs, w).
Proof. reflexivity. Qed.

Lemma get_string_state key fallback kwargs w :
  snd (get_string py key fallback kwargs w) = w.
Proof. reflexivity. Qed.

Lemma argv_text args : argv (map VStr args) = Some args.
Proof. induction args as [|a args IH]; simpl; [|rewrite IH]; reflexivity. Qed.

(** [run_command] on arguments that are all text. *)
Lemma run_command_text args w :
  run_command py (map VStr args) w =
  let (result, s) := subprocess_run args (host w) in
  match result with
  | Completed stdout => (Returns stdout, ran args s w)
  | CalledProcessError stderr =>
      (Returns (lit "Error: Command Error" ++ [Text.LF] ++ stderr), ran args s w)
  | FileNotFoundError =>
      match fst (get_string py (lit "error_wsl_not_found") None [] w) with
      | Returns msg => (Returns (lit "Error: " ++ msg), ran args s w)
      | Raises e => (Raises e, ran args s w)
      end
  | OtherFailure e => (Raises e, ran args s w)
  end.
Proof.
  unfold run_command. rewrite argv_text.
  unfold bind at 1. unfold get at 1.
  destruct (subprocess_run args (host w)) as [result s].
  destruct result; reflexivity.
Qed.

(** [run_command] never returns the empty error text for a failed process:
    what it returns then starts with ["Error:"]. *)
Lemma run_command_failed_text args w r s result w' :
  subprocess_run args (host w) = (r, s) ->
  (forall stdout, r <> Completed stdout) ->
  run_command py (map VStr args) w = (Returns result, w') ->
  is_error result = true.
Proof.
  intros Hrun Hfail. rewrite run_command_text, Hrun.
  destruct r as [stdout| stderr | |e].
  - now destruct (Hfail stdout).
  - intros [= <- _]. reflexivity.
  - destruct (fst _); intros [= <- _]; reflexivity.
  - discriminate.
Qed.

(** Whatever happens, [run_command] adds at most its own [Run] to the trace
    and touches nothing of the window. *)
Lemma run_command_frame command w :
  let w' := exec (run_command py command) w in
  lang_data w' = lang_data w /\ tree w' = tree w /\ selection w' = selection w
  /\ widgets w' = widgets w /\ shortcut_command_var w' = shortcut_command_var w
  /\ rename_result w' = rename_result w
  /\ (w' = w \/ exists args, argv command = Some args
                 /\ w' = ran args (snd (subprocess_run args (host w))) w).
Proof.
  unfold exec, run_command.
  destruct (argv command) as [args|] eqn:Ha.
  - assert (Hw : snd (run_command py (map VStr args) w)
                 = ran args (snd (subprocess_run args (host w))) w).
    { rewrite run_command_text.
      destruct (subprocess_run args (host w)) as [r s].
      destruct r; try reflexivity.
      destruct (fst (get_string py (lit "error_wsl_not_found") None [] w)); reflexivity. }
    unfold run_command in Hw. rewrite argv_text in Hw. rewrite Hw.
    repeat split; try reflexivity. right. now exists args.
  - simpl. repeat split; try reflexivity. now left.
Qed.

(** *** [on_item_select] *)

Lemma on_item_select_none w :
  selected w = None -> on_item_select py w = (Returns tt, deselected w).
Proof.
  intros Hsel. unfold on_item_select, bind, get. rewrite Hsel. reflexivity.
Qed.

Lemma convert_stringval_text s t :
  Py.convert_stringval py s = VStr t -> t = s.
Proof.
  unfold Py.convert_stringval. destruct (Py.int py s); congruence.
Qed.

Lemma contains_char c s : Text.contains [c] s = true -> c ∈ s.
Proof.
  induction s as [|d s IH]; simpl.
  - discriminate.
  - rewrite orb_true_iff, andb_true_iff. intros [[Hd _]|Hs].
    + apply N.eqb_eq in Hd. subst. left.
    + right. auto.
Qed.

Lemma char_contains c s : c ∈ s -> Text.contains [c] s = true.
Proof.
  induction s as [|d s IH]; [intros Hc; inversion Hc|].
  rewrite elem_of_cons. simpl. intros [->|Hc].
  - now rewrite N.eqb_refl.
  - rewrite IH by exact Hc. apply orb_true_r.
Qed.

(** What [on_item_select] does for a selected row: an integer where the
    name should be stops it with a [TypeError] once the buttons are set; a
    name that is text gets the quoted command when it holds a space and the
    plain one otherwise. *)
Lemma on_item_select_selected w item :
  selected w = Some item ->
  on_item_select py w =
  let w1 := set_widgets
              (buttons_for (bool_decide (Py.convert_stringval py (state item)
                                         = VStr (lit "Stopped")))) w in
  match Py.convert_stringval py (name item) with
  | VInt z => (Raises TypeError, w1)
  | VStr s =>
      (Returns tt,
       set_shortcut_command_var
         (if Text.contains [Text.SPACE] s then quoted_command (VStr s)
          else plain_command (VStr s)) w1)
  end.
Proof.
  intros Hsel. unfold on_item_select, bind, get. rewrite Hsel.
  unfold item_values.
  destruct (Py.convert_stringval py (name item)) as [s|z];
    destruct (bool_decide (Py.convert_stringval py (state item) = VStr (lit "Stopped")));
    reflexivity.
Qed.

(** *** [populate_wsl_list] *)

Lemma for_each_insert lines w :
  for_each lines
    (fun line =>
       match parse_line py line with
       | Some v => tree_insert v
       | None => ret tt
       end) w
  = (Returns tt, set_tree (tree w ++ omap (parse_line py) lines) w).
Proof.
  revert w. induction lines as [|line lines IH]; intros w.
  - cbn [for_each omap list_omap]. rewrite app_nil_r, set_tree_same. reflexivity.
  - cbn [for_each omap list_omap]. unfold bind at 1.
    destruct (parse_line py line) as [v|].
    + unfold tree_insert, modify. rewrite IH. f_equal.
      destruct w; cbn. now rewrite <- app_assoc.
    + unfold ret at 1. apply IH.
Qed.

(** [populate_wsl_list] clears the tree, runs the listing command on the
    cleared window, and inserts the rows of what it printed, unless that
    is an error text. *)
Lemma populate_wsl_list_eq w :
  populate_wsl_list py w =
  match run_command py (map VStr list_command) (cleared w) with
  | (Returns output, w1) =>
      if Text.startswith output (lit "Error:") then (Returns tt, w1)
      else if bool_decide (selection w1 = None) then (Returns tt, shown py output w1)
      else on_item_select py (set_tree (tree w1 ++ parse_listing py output) w1)
  | (Raises e, w1) => (Raises e, w1)
  end.
Proof.
  unfold populate_wsl_list.
  unfold bind at 1, modify at 1. unfold bind at 1, modify at 1.
  change (set_selection None (set_tree [] w)) with (cleared w).
  unfold bind at 1.
  change [VStr (lit "wsl"); VStr (lit "--list"); VStr (lit "--verbose")]
    with (map VStr list_command).
  destruct (run_command py (map VStr list_command) (cleared w)) as [[output|e] w1];
    [|reflexivity].
  destruct (Text.startswith output (lit "Error:")); [reflexivity|].
  unfold bind at 1. rewrite for_each_insert.
  fold (parse_listing py output).
  case_bool_decide as Hsel; [|reflexivity].
  apply on_item_select_none. unfold selected. cbn. now rewrite Hsel.
Qed.

(** After [populate_wsl_list] the tree holds the rows of the output of the
    listing command, and nothing when there is no such output. *)
Lemma populate_wsl_list_tree w :
  tree (exec (populate_wsl_list py) w) =
  match run_command py (map VStr list_command) (cleared w) with
  | (Returns output, _) =>
      if Text.startswith output (lit "Error:") then [] else parse_listing py output
  | (Raises _, _) => []
  end.
Proof.
  unfold exec. rewrite populate_wsl_list_eq.
  pose proof (run_command_frame (map VStr list_command) (cleared w)) as Hf.
  unfold exec in Hf. cbv zeta in Hf.
  destruct (run_command py (map VStr list_command) (cleared w)) as [[output|e] w1];
    cbn [snd] in *; destruct Hf as (_ & Ht & Hs & _).
  - destruct (Text.startswith output (lit "Error:")); [exact Ht|].
    rewrite bool_decide_true by exact Hs.
    unfold shown, deselected. cbn. now rewrite Ht.
  - exact Ht.
Qed.

Lemma blank_listing output : blank output = true -> parse_listing py output = [].
Proof.
  unfold blank, parse_listing, listing_lines.
  destruct (Text.strip output); [reflexivity | discriminate].
Qed.

(** *** Refresh (C7, C8) *)

(** C7: after a refresh whose listing command fails (the tool is missing,
    exits with an error or cannot be run at all) or prints an error text
    or nothing but blanks, the tree is empty, whatever rows it held before:
    they are deleted before the command runs and nothing puts them back. *)
Theorem failed_refresh_leaves_empty_tree w r s :
  subprocess_run list_command (host w) = (r, s) ->
  list_failed r = true ->
  tree (exec (populate_wsl_list py) w) = [].
Proof.
  intros Hrun Hfail.
  rewrite populate_wsl_list_tree, run_command_text.
  change (host (cleared w)) with (host w). rewrite Hrun.
  destruct r as [stdout|stderr| |e]; try reflexivity.
  - unfold list_failed in Hfail.
    apply orb_true_iff in Hfail as [->|Hb]; [reflexivity|].
    rewrite blank_listing by exact Hb. now destruct (Text.startswith _ _).
  - destruct (fst _); reflexivity.
Qed.

(** C8: the rows a refresh leaves in the tree are a function of the text
    the listing command printed: two refreshes that read the same text,
    from whatever windows they start, the second one possibly from the
    window the first one left, end with identical rows, the rows of
    [parse_listing]. *)
Theorem refresh_depends_on_text_only w1 w2 output s1 s2 :
  subprocess_run list_command (host w1) = (Completed output, s1) ->
  subprocess_run list_command (host w2) = (Completed output, s2) ->
  tree (exec (populate_wsl_list py) w1) = tree (exec (populate_wsl_list py) w2)
  /\ tree (exec (populate_wsl_list py) w1)
     = if Text.startswith output (lit "Error:") then [] else parse_listing py output.
Proof.
  intros Hrun1 Hrun2.
  assert (Htree : forall w s, subprocess_run list_command (host w) = (Completed output, s) ->
            tree (exec (populate_wsl_list py) w)
            = if Text.startswith output (lit "Error:") then [] else parse_listing py output).
  { intros w s Hrun. rewrite populate_wsl_list_tree, run_command_text.
    change (host (cleared w)) with (host w). now rewrite Hrun. }
  rewrite (Htree w1 s1 Hrun1), (Htree w2 s2 Hrun2). split; reflexivity.
Qed.

(** *** Names and the shortcut command (C10) *)

Lemma parsed_name_visible output item c :
  item ∈ parse_listing py output -> c ∈ name item ->
  Text.isspace c = false /\ c <> Text.NUL.
Proof.
  intros Hitem Hc.
  apply parse_listing_row in Hitem as [line Hline].
  apply parse_line_name in Hline as [p0 Hname]. rewrite Hname in Hc.
  apply re_sub_nonword_keeps in Hc as [_ [Hw | [-> | ->]]].
  - now apply is_word_visible in Hw.
  - split; [reflexivity | discriminate].
  - split; [reflexivity | discriminate].
Qed.

(** C10: a name the parser produced holds no space, no other whitespace
    and no NUL; so, when a row of the parser is selected, the test
    [' ' in distro_name] of [on_item_select] is never true and the quoted
    command is never built: the method sets the plain command
    [wsl.exe -d name], or, for a name that the tree view hands back as an
    integer, stops at the test with a [TypeError]. *)
Theorem parsed_name_never_quoted w output item :
  item ∈ parse_listing py output ->
  selected w = Some item ->
  Forall (fun c => Text.isspace c = false /\ c <> Text.NUL) (name item)
  /\ fst (has_space (Py.convert_stringval py (name item)) w) <> Returns true
  /\ ((exists z, Py.convert_stringval py (name item) = VInt z
                 /\ fst (on_item_select py w) = Raises TypeError)
      \/ (fst (on_item_select py w) = Returns tt
          /\ shortcut_command_var (exec (on_item_select py) w)
             = lit "wsl.exe -d " ++ name item)).
Proof.
  intros Hitem Hsel.
  assert (Hvis : forall c, c ∈ name item -> Text.isspace c = false /\ c <> Text.NUL)
    by (intros c; now apply parsed_name_visible with output).
  assert (Hnospace : Text.contains [Text.SPACE] (name item) = false).
  { destruct (Text.contains [Text.SPACE] (name item)) eqn:E; [|reflexivity].
    apply contains_char, Hvis in E as [E _]. discriminate. }
  split; [now apply Forall_forall|].
  unfold exec. rewrite (on_item_select_selected w item Hsel). cbv zeta.
  destruct (Py.convert_stringval py (name item)) as [s|z] eqn:Hconv.
  - apply convert_stringval_text in Hconv as ->.
    unfold has_space, ret. cbn [fst snd]. rewrite Hnospace.
    split; [discriminate|]. right. split; reflexivity.
  - split; [discriminate|]. left. exists z. split; reflexivity.
Qed.

(** *** Methods that only talk to the user *)

Lemma untouched_refl w : untouched w w.
Proof.
  repeat split. exists []. now rewrite app_nil_r.
Qed.

Lemma untouched_trans w1 w2 w3 :
  untouched w1 w2 -> untouched w2 w3 -> untouched w1 w3.
Proof.
  intros (Hh & Ht & Hs & Hr & evs & He & Hq) (Hh' & Ht' & Hs' & Hr' & evs' & He' & Hq').
  repeat split; try congruence.
  exists (evs ++ evs'). split.
  - rewrite He', He. now rewrite app_assoc.
  - rewrite forallb_app, Hq, Hq'. reflexivity.
Qed.

Lemma quiet_ret {A} (a : A) : quiet (ret a : @M S A).
Proof. intros w. apply untouched_refl. Qed.

Lemma quiet_raise {A} e : quiet (raise e : @M S A).
Proof. intros w. apply untouched_refl. Qed.

Lemma quiet_lift {A} (o : outcome A) : quiet (lift o : @M S A).
Proof. intros w. apply untouched_refl. Qed.

Lemma quiet_bind {A B} (m : @M S A) (k : A -> @M S B) :
  quiet m -> (forall a, quiet (k a)) -> quiet (bind m k).
Proof.
  intros Hm Hk w. unfold bind. specialize (Hm w).
  destruct (m w) as [[a|e] w1]; cbn [snd] in *; [|exact Hm].
  apply untouched_trans with w1; [exact Hm | apply Hk].
Qed.

Lemma quiet_emit ev : is_external ev = false -> quiet (emit ev : @M S unit).
Proof.
  intros Hev w. repeat split. exists [ev]. split; [reflexivity|].
  cbn. now rewrite Hev.
Qed.

Lemma quiet_get_string key fallback kwargs :
  quiet (get_string py key fallback kwargs : @M S str).
Proof. intros w. apply untouched_refl. Qed.

Lemma quiet_showerror key kwargs : quiet (showerror py key kwargs : @M S unit).
Proof.
  unfold showerror.
  apply quiet_bind; [apply quiet_get_string | intros title].
  apply quiet_bind; [apply quiet_get_string | intros message].
  now apply quiet_emit.
Qed.

Lemma stopped_text item :
  bool_decide (Py.convert_stringval py (state item) = VStr (lit "Stopped")) = true ->
  state item = lit "Stopped".
Proof.
  intros Hb. apply bool_decide_eq_true in Hb.
  now apply convert_stringval_text in Hb.
Qed.

Lemma nothing_to_rename_stripped new_name old_name :
  Text.strip new_name = [] -> nothing_to_rename (Some new_name) old_name = true.
Proof.
  intros Hs. unfold nothing_to_rename. rewrite Hs.
  now destruct new_name.
Qed.

(** *** The gate of [rename_distro] (C5) *)

(** C5 (amended): a rename request is turned down before any tool
    invocation, any file system call and the start of the worker, and
    leaves the host, the rows and the stored result as they were, whenever
    the selected row is not in state [Stopped], the name dialog is cancelled,
    the new name is empty or blank, the new name is the old name as the
    tree view hands it back, the new name holds a space character, or the
    new name is one of the names the tree view hands back. (Whitespace other
    than the space character inside the new name is no ground for refusal.) *)
Theorem violating_rename_is_refused w item reply confirmed :
  selected w = Some item ->
  violation py w item reply ->
  let w' := exec (rename_distro py reply confirmed) w in
  host w' = host w /\ tree w' = tree w /\ rename_result w' = rename_result w
  /\ forallb (fun ev => negb (is_external ev)) (since w w') = true.
Proof.
  intros Hsel Hviol.
  assert (Hu : untouched w (exec (rename_distro py reply confirmed) w)).
  { unfold exec, rename_distro. unfold bind at 1, get at 1. rewrite Hsel.
    unfold item_values.
    match goal with |- untouched w (snd (?m w)) => assert (Hq : quiet m); [|apply Hq] end.
    destruct (bool_decide (Py.convert_stringval py (state item) = VStr (lit "Stopped")))
      eqn:Hstopped; cbn [negb]; [|apply quiet_showerror].
    apply quiet_bind; [apply quiet_get_string | intros title].
    apply quiet_bind; [apply quiet_get_string | intros prompt].
    apply quiet_bind; [now apply quiet_emit | intros _].
    destruct Hviol as [reply Hstate | | new_name Hblank | new_name Hsame
                       | new_name Hspace | new_name Hdup].
    - apply stopped_text in Hstopped. contradiction.
    - apply quiet_ret.
    - rewrite nothing_to_rename_stripped by exact Hblank. apply quiet_ret.
    - unfold nothing_to_rename. rewrite Hsame.
      rewrite bool_decide_true by reflexivity. rewrite !orb_true_r. apply quiet_ret.
    - destruct (nothing_to_rename _ _); [apply quiet_ret|].
      cbn [default]. rewrite char_contains by exact Hspace. apply quiet_showerror.
    - destruct (nothing_to_rename _ _); [apply quiet_ret|].
      cbn [default]. destruct (Text.contains _ _); [apply quiet_showerror|].
      rewrite bool_decide_true by exact Hdup. apply quiet_showerror. }
  destruct Hu as (Hh & Ht & _ & Hr & evs & He & Hq).
  cbv zeta. repeat split; try assumption.
  now rewrite (since_app _ _ _ He).
Qed.

(** *** The worker (C1, C6) *)

Lemma argv_export w old_name args :
  argv (export_command w old_name) = Some args ->
  is_export_run (Run args) = true.
Proof.
  unfold export_command. cbn [argv].
  destruct old_name as [s|z]; cbn [argv option_map]; [|discriminate].
  intros [= <-]. reflexivity.
Qed.

(** The worker begins with the export command. *)
Lemma rename_worker_begins w old_name new_name :
  exists rest,
    _rename_worker py old_name new_name w
    = bind (run_command py (export_command w old_name))
        (fun result =>
           if is_error result then
             modify (set_rename_result
                       (Some (lit "Export failed:" ++ [Text.LF] ++ result)))
           else rest result) w.
Proof.
  unfold _rename_worker. unfold bind at 1, get at 1.
  fold (export_path w old_name). fold (export_command w old_name).
  eexists. reflexivity.
Qed.

(** C6: when the export step of the rename fails ([run_command] returns an
    error text, or raises), the worker stops there: the host and the trace
    are as the export command left them, so the only event the worker may
    have added is that one [wsl --export] invocation; neither the
    unregister nor the import command is run and no removal of the archive
    is attempted. *)
Theorem failed_export_stops_worker w old_name new_name :
  step_failed (fst (run_command py (export_command w old_name) w)) = true ->
  let w1 := exec (run_command py (export_command w old_name)) w in
  let w' := exec (_rename_worker py old_name new_name) w in
  host w' = host w1 /\ trace w' = trace w1
  /\ forallb is_export_run (since w w') = true.
Proof.
  intros Hfail. cbv zeta.
  destruct (rename_worker_begins w old_name new_name) as [rest Hbegin].
  assert (Hsame : host (exec (_rename_worker py old_name new_name) w)
                  = host (exec (run_command py (export_command w old_name)) w)
                  /\ trace (exec (_rename_worker py old_name new_name) w)
                     = trace (exec (run_command py (export_command w old_name)) w)).
  { unfold exec. rewrite Hbegin. unfold bind.
    destruct (run_command py (export_command w old_name) w) as [[result|e] w1];
      cbn [fst snd step_failed] in *; [|split; reflexivity].
    rewrite Hfail. split; reflexivity. }
  destruct Hsame as [Hhost Htrace]. split; [exact Hhost|]. split; [exact Htrace|].
  unfold since. rewrite Htrace.
  destruct (run_command_frame (export_command w old_name) w)
    as (_ & _ & _ & _ & _ & _ & [-> | (args & Hargs & ->)]).
  - rewrite drop_all. reflexivity.
  - unfold ran. cbn [trace log set_host]. rewrite drop_app_length.
    cbn [forallb]. now rewrite (argv_export w old_name args Hargs).
Qed.

(** C1 (amended): when the unregister step fails after a successful
    export, the worker stops without running the import command; it stores
    the message ["Unregister failed:"], a line break and the error text of
    the tool, which names the step that failed and says nothing of the
    archive; and it calls [os.remove] on the temporary archive, so the
    archive is deleted where the file system allows it. *)
Theorem failed_unregister_removes_archive w old_name new_name result1 w1 result2 w2 :
  run_command py (export_command w old_name) w = (Returns result1, w1) ->
  is_error result1 = false ->
  run_command py (unregister_command old_name) w1 = (Returns result2, w2) ->
  is_error result2 = true ->
  let w' := exec (_rename_worker py old_name new_name) w in
  since w2 w' = [Remove (export_path w old_name)]
  /\ rename_result w' = Some (lit "Unregister failed:" ++ [Text.LF] ++ result2)
  /\ host w' = match os_remove (export_path w old_name) (host w2) with
               | Some s => s
               | None => host w2
               end.
Proof.
  intros Hexport Hok Hunregister Hfailed. cbv zeta.
  set (stored := log (Remove (export_path w old_name))
                   (set_rename_result
                      (Some (lit "Unregister failed:" ++ [Text.LF] ++ result2)) w2)).
  assert (Hw : exec (_rename_worker py old_name new_name) w
               = match os_remove (export_path w old_name) (host w2) with
                 | Some s => set_host s stored
                 | None => stored
                 end).
  { unfold exec, _rename_worker. unfold bind at 1, get at 1.
    fold (export_path w old_name). fold (export_command w old_name).
    unfold bind at 1. rewrite Hexport, Hok.
    unfold bind at 1. fold (unregister_command old_name).
    rewrite Hunregister, Hfailed.
    unfold bind, modify, remove, emit, modify, get, bind.
    cbn [host log set_rename_result].
    destruct (os_remove (export_path w old_name) (host w2)); reflexivity. }
  rewrite Hw.
  destruct (os_remove (export_path w old_name) (host w2)) as [s|];
    (split; [apply since_app; reflexivity | split; reflexivity]).
Qed.

(** *** The report of a rename (C9) *)

(** A refresh shows no message box. *)
Lemma populate_wsl_list_trace w :
  exists evs, trace (exec (populate_wsl_list py) w) = trace w ++ evs
              /\ List.filter is_dialog evs = [].
Proof.
  unfold exec. rewrite populate_wsl_list_eq.
  pose proof (run_command_frame (map VStr list_command) (cleared w)) as Hf.
  unfold exec in Hf. cbv zeta in Hf.
  destruct (run_command py (map VStr list_command) (cleared w)) as [[output|e] w1];
    cbn [snd] in *; destruct Hf as (_ & _ & Hs & _ & _ & _ & Hw).
  - assert (Htrace : exists evs, trace w1 = trace w ++ evs /\ List.filter is_dialog evs = []).
    { destruct Hw as [-> | (args & _ & ->)].
      - exists []. now rewrite app_nil_r.
      - exists [Run args]. split; reflexivity. }
    destruct (Text.startswith output (lit "Error:")); [exact Htrace|].
    rewrite bool_decide_true by exact Hs. exact Htrace.
  - destruct Hw as [-> | (args & _ & ->)].
    + exists []. now rewrite app_nil_r.
    + exists [Run args]. split; reflexivity.
Qed.

(** C9: once the rename thread has ended with a result stored, the poll
    shows exactly one message box, and which one depends on the text of the
    result alone: the error box with that result exactly when the result
    holds the word ["failed"] in some mix of capitals and small letters, and
    the box titled ["Success"] exactly when it does not. Nothing else is
    looked at: a message of success that holds the word is shown as an
    error, and a message of failure without it is shown as a success. *)
Theorem failed_word_decides_dialog w message title :
  rename_result w = Some message ->
  fst (get_string py (lit "error_title") None [] w) = Returns title ->
  let boxes :=
    List.filter is_dialog (since w (exec (check_rename_status py false) w)) in
  (boxes = [ShowError title message] \/ boxes = [ShowInfo (lit "Success") message])
  /\ (boxes = [ShowError title message] <-> mentions_failed message)
  /\ (boxes = [ShowInfo (lit "Success") message] <-> ~ mentions_failed message).
Proof.
  intros Hresult Htitle boxes.
  set (w0 := log ProgressDestroy w).
  set (box := if says_failed py message then ShowError title message
              else ShowInfo (lit "Success") message).
  assert (Hw : exec (check_rename_status py false) w
               = exec (populate_wsl_list py) (log box w0)).
  { unfold exec, check_rename_status.
    unfold bind at 1, emit at 1, modify at 1. fold w0.
    unfold bind at 1, get at 1. unfold bind at 1.
    change (rename_result w0) with (rename_result w). rewrite Hresult.
    subst box. destruct (says_failed py message).
    - unfold bind at 1.
      change (get_string py (lit "error_title") None [] w0)
        with (fst (get_string py (lit "error_title") None [] w), w0).
      rewrite Htitle. reflexivity.
    - reflexivity. }
  assert (Hboxes : boxes = [box]).
  { subst boxes. rewrite Hw.
    destruct (populate_wsl_list_trace (log box w0)) as (evs & Htrace & Hnone).
    rewrite (since_app w _ ([ProgressDestroy; box] ++ evs)).
    - rewrite List.filter_app, Hnone. subst box.
      destruct (says_failed py message); reflexivity.
    - rewrite Htrace. subst w0. cbn [trace log].
      now rewrite <- !app_assoc. }
  rewrite Hboxes. subst box. clear Hboxes Hw.
  pose proof (says_failed_mentions py message) as Hword.
  destruct (says_failed py message).
  - assert (Hyes : mentions_failed message) by now apply Hword.
    split; [now left|]. split; split; try easy.
  - assert (Hno : ~ mentions_failed message).
    { intros Hyes. apply Hword in Hyes. discriminate. }
    split; [now right|]. split; split; try easy.
Qed.

End Methods.

(** ** The properties at work on the reference machine *)

(** C1, counterexample: Debian is exported and then refuses to be
    unregistered. The archive exists after the export; the worker then
    removes it, so it is gone when the worker ends; and the message stored
    for the user does not hold the path of the archive. *)
Lemma unregister_failure_deletes_archive :
  let w := at_startup example_machine in
  let old_name := VStr (lit "Debian") in
  let archive := lit "C:\Temp\Debian_export.tar" in
  let w1 := exec (run_command bare_python (export_command w old_name)) w in
  let w' := exec (_rename_worker bare_python old_name (lit "Deb2")) w in
  (export_path w old_name = archive /\ member archive (files (host w1)) = true)
  /\ since w w' = [Run [lit "wsl"; lit "--export"; lit "Debian"; archive];
                   Run [lit "wsl"; lit "--unregister"; lit "Debian"];
                   Remove archive]
  /\ member archive (files (host w')) = false
  /\ rename_result w'
     = Some (lit "Unregister failed:" ++ [Text.LF]
             ++ lit "Error: Command Error" ++ [Text.LF] ++ lit "Access is denied.")
  /\ Text.contains archive
       (lit "Unregister failed:" ++ [Text.LF]
        ++ lit "Error: Command Error" ++ [Text.LF] ++ lit "Access is denied.") = false.
Proof.
  vm_compute. repeat split; reflexivity.
Qed.

(** C1 (amended) on the reference machine: Debian, exported and then
    refusing to be unregistered. *)
Lemma failed_unregister_witness :
  let w := at_startup example_machine in
  let old_name := VStr (lit "Debian") in
  let w1 := exec (run_command bare_python (export_command w old_name)) w in
  let w2 := exec (run_command bare_python (unregister_command old_name)) w1 in
  let result2 := lit "Error: Command Error" ++ [Text.LF] ++ lit "Access is denied." in
  let w' := exec (_rename_worker bare_python old_name (lit "Deb2")) w in
  (run_command bare_python (export_command w old_name) w = (Returns [], w1)
   /\ run_command bare_python (unregister_command old_name) w1 = (Returns result2, w2))
  /\ since w2 w' = [Remove (export_path w old_name)]
  /\ rename_result w' = Some (lit "Unregister failed:" ++ [Text.LF] ++ result2)
  /\ host w' = match os_remove (export_path w old_name) (host w2) with
               | Some s => s
               | None => host w2
               end.
Proof.
  intros w old_name w1 w2 result2 w'.
  split; [split; vm_compute; reflexivity|].
  apply (failed_unregister_removes_archive bare_python w old_name (lit "Deb2") [] w1 result2 w2);
    vm_compute; reflexivity.
Defined.

(** C5, counterexample: Ubuntu is selected and stopped, the user types a
    new name with a tab in it and confirms; the request is not refused:
    the worker thread is started. *)
Lemma tab_in_new_name_is_accepted :
  let w := example_window in
  let new_name := lit "my" ++ [9%N] ++ lit "distro" in
  let w' := exec (rename_distro bare_python (Some new_name) true) w in
  selected w = Some (row "Ubuntu" "Stopped" "2")
  /\ existsb Text.isspace new_name = true
  /\ last (trace w') = Some (ThreadStart (VStr (lit "Ubuntu")) new_name)
  /\ existsb is_external (since w w') = true.
Proof.
  vm_compute. repeat split; reflexivity.
Qed.

(** C5 (amended) on the reference machine: Ubuntu is selected and the
    user asks for the name of the other row. *)
Lemma duplicate_rename_witness :
  let w := example_window in
  let w' := exec (rename_distro bare_python (Some (lit "Debian")) true) w in
  (selected w = Some (row "Ubuntu" "Stopped" "2")
   /\ VStr (lit "Debian") ∈ current_names bare_python w)
  /\ host w' = host w /\ tree w' = tree w /\ rename_result w' = rename_result w
  /\ forallb (fun ev => negb (is_external ev)) (since w w') = true.
Proof.
  intros w w'.
  assert (Hdup : VStr (lit "Debian") ∈ current_names bare_python w)
    by (apply (bool_decide_unpack _); vm_compute; exact I).
  split; [split; [reflexivity | exact Hdup]|].
  apply (violating_rename_is_refused bare_python w (row "Ubuntu" "Stopped" "2")
           (Some (lit "Debian")) true).
  - reflexivity.
  - apply duplicate_name. exact Hdup.
Defined.

(** C6 on the reference machine: the export of a distribution the tool
    does not know. *)
Lemma failed_export_witness :
  let w := at_startup example_machine in
  let old_name := VStr (lit "Fedora") in
  let w1 := exec (run_command bare_python (export_command w old_name)) w in
  let w' := exec (_rename_worker bare_python old_name (lit "Hat")) w in
  step_failed (fst (run_command bare_python (export_command w old_name) w)) = true
  /\ host w' = host w1 /\ trace w' = trace w1
  /\ forallb is_export_run (since w w') = true.
Proof.
  intros w old_name w1 w'.
  split; [vm_compute; reflexivity|].
  apply (failed_export_stops_worker bare_python w old_name (lit "Hat")).
  vm_compute. reflexivity.
Defined.

(** C7 on a machine without the tool, from a window that still shows a
    row. *)
Lemma failed_refresh_witness :
  let m := Machine [] [lit "Ubuntu"] [] false in
  let w := set_tree [row "Ubuntu" "Stopped" "2"] (at_startup m) in
  (subprocess_run list_command (host w) = (FileNotFoundError, m)
   /\ list_failed FileNotFoundError = true)
  /\ tree (exec (populate_wsl_list bare_python) w) = [].
Proof.
  intros m w.
  split; [split; reflexivity|].
  apply (failed_refresh_leaves_empty_tree bare_python w FileNotFoundError m);
    reflexivity.
Defined.

(** C8 on the reference machine: the first refresh and a second one from
    the window it left. *)
Lemma refresh_twice_witness :
  let w1 := at_startup example_machine in
  let w2 := exec (populate_wsl_list bare_python) w1 in
  let output := listing_of (registered example_machine) in
  (subprocess_run list_command (host w1) = (Completed output, example_machine)
   /\ subprocess_run list_command (host w2) = (Completed output, example_machine))
  /\ tree (exec (populate_wsl_list bare_python) w1)
     = tree (exec (populate_wsl_list bare_python) w2)
  /\ tree (exec (populate_wsl_list bare_python) w1)
     = if Text.startswith output (lit "Error:") then []
       else parse_listing bare_python output.
Proof.
  intros w1 w2 output.
  split; [split; vm_compute; reflexivity|].
  apply (refresh_depends_on_text_only bare_python w1 w2 output
           example_machine example_machine);
    vm_compute; reflexivity.
Defined.

(** C9 on the reference machine. Ubuntu is renamed to [notfailed]: every
    step succeeds and the message of success is shown as an error, for it
    holds the word. So is a message of failure followed by text outside
    ASCII, in capitals too; a message of failure that does not hold the word
    is shown as a success. *)
Lemma success_shown_as_error_witness :
  let w := exec (rename_thread bare_python (VStr (lit "Ubuntu")) (lit "notfailed"))
                english_window in
  let message := lit "Renamed to notfailed." in
  let failure := lit "IMPORT FAILED:" ++ [Text.LF; 12456; 12521; 12540]%N in
  let w1 := set_rename_result (Some failure) english_window in
  let wordless := lit "Import error: access denied" in
  let w2 := set_rename_result (Some wordless) english_window in
  ((rename_result w = Some message
    /\ fst (get_string bare_python (lit "error_title") None [] w)
       = Returns (lit "error_title"))
   /\ mentions_failed message
   /\ List.filter is_dialog (since w (exec (check_rename_status bare_python false) w))
      = [ShowError (lit "error_title") message])
  /\ ((rename_result w1 = Some failure
       /\ fst (get_string bare_python (lit "error_title") None [] w1)
          = Returns (lit "error_title"))
      /\ List.filter is_dialog (since w1 (exec (check_rename_status bare_python false) w1))
         = [ShowError (lit "error_title") failure])
  /\ ((rename_result w2 = Some wordless
       /\ fst (get_string bare_python (lit "error_title") None [] w2)
          = Returns (lit "error_title"))
      /\ List.filter is_dialog (since w2 (exec (check_rename_status bare_python false) w2))
         = [ShowInfo (lit "Success") wordless]).
Proof.
  intros w message failure w1 wordless w2.
  assert (Hmessage : mentions_failed message).
  { exists (lit "Renamed to not"), (lit "failed"), (lit ".").
    split; [reflexivity | vm_compute].
    repeat (constructor; [first [now left | now right]|]). constructor. }
  assert (Hfailure : mentions_failed failure).
  { exists (lit "IMPORT "), (lit "FAILED"), (lit ":" ++ [Text.LF; 12456; 12521; 12540]%N).
    split; [reflexivity | vm_compute].
    repeat (constructor; [first [now left | now right]|]). constructor. }
  assert (Hwordless : ~ mentions_failed wordless).
  { intros Hword. apply (says_failed_mentions bare_python) in Hword.
    vm_compute in Hword. discriminate. }
  split; [|split].
  - split; [split; vm_compute; reflexivity|]. split; [exact Hmessage|].
    destruct (failed_word_decides_dialog bare_python w message (lit "error_title"))
      as (_ & Hbox & _); [vm_compute; reflexivity | vm_compute; reflexivity |].
    apply Hbox, Hmessage.
  - split; [split; vm_compute; reflexivity|].
    destruct (failed_word_decides_dialog bare_python w1 failure (lit "error_title"))
      as (_ & Hbox & _); [vm_compute; reflexivity | vm_compute; reflexivity |].
    apply Hbox, Hfailure.
  - split; [split; vm_compute; reflexivity|].
    destruct (failed_word_decides_dialog bare_python w2 wordless (lit "error_title"))
      as (_ & _ & Hbox); [vm_compute; reflexivity | vm_compute; reflexivity |].
    apply Hbox, Hwordless.
Defined.

(** C10 on the reference machine: the selected row Ubuntu. *)
Lemma selected_name_witness :
  let w := example_window in
  let item := row "Ubuntu" "Stopped" "2" in
  let output := listing_of (registered example_machine) in
  (item ∈ parse_listing bare_python output /\ selected w = Some item)
  /\ Forall (fun c => Text.isspace c = false /\ c <> Text.NUL) (name item)
  /\ fst (has_space (Py.convert_stringval bare_python (name item)) w) <> Returns true
  /\ ((exists z, Py.convert_stringval bare_python (name item) = VInt z
                 /\ fst (on_item_select bare_python w) = Raises TypeError)
      \/ (fst (on_item_select bare_python w) = Returns tt
          /\ shortcut_command_var (exec (on_item_select bare_python) w)
             = lit "wsl.exe -d " ++ name item)).
Proof.
  intros w item output.
  assert (Hitem : item ∈ parse_listing bare_python output)
    by (apply (bool_decide_unpack _); vm_compute; exact I).
  split; [split; [exact Hitem | reflexivity]|].
  apply (parsed_name_never_quoted bare_python w output item Hitem).
  reflexivity.
Defined.

(** ** Further properties of the listing parser *)

Module SplitFacts.

Import Text.

Lemma split_without_separator sep s : sep ∉ s -> split sep s = [s].
Proof.
  induction s as [|c t IH]; [reflexivity|].
  rewrite not_elem_of_cons. intros [Hc Ht]. simpl.
  destruct (N.eqb_spec c sep) as [->|_]; [contradiction|].
  now rewrite IH.
Qed.

(** What is left of [s] once its left end is stripped is a suffix of [s],
    and what is left once its right end is stripped a prefix. *)
Lemma lstrip_with_suffix p s : lstrip_with p s `suffix_of` s.
Proof.
  induction s as [|c t IH]; simpl; [reflexivity|].
  destruct (p c); [now apply suffix_cons_r | reflexivity].
Qed.

Lemma rstrip_with_prefix p s : rstrip_with p s `prefix_of` s.
Proof.
  unfold rstrip_with.
  destruct (lstrip_with_suffix p (rev s)) as [k Hk].
  exists (rev k). rewrite <- rev_app_distr, <- Hk. now rewrite rev_involutive.
Qed.

Lemma has_gap_cons c t : has_gap (c :: t) = false -> has_gap t = false.
Proof.
  destruct t as [|d t]; [reflexivity|]. cbn [has_gap].
  intros Hg. now apply orb_false_iff in Hg as [_ Hg].
Qed.

Lemma has_gap_suffix s t : s `suffix_of` t -> has_gap t = false -> has_gap s = false.
Proof.
  intros [k ->]. induction k as [|c k IH]; [trivial|].
  intros Hg. apply IH. now apply has_gap_cons in Hg.
Qed.

Lemma has_gap_prefix s t : s `prefix_of` t -> has_gap t = false -> has_gap s = false.
Proof.
  intros [k ->]. induction s as [|c s IH]; [reflexivity|].
  intros Hg. destruct s as [|d s]; [reflexivity|].
  cbn [has_gap app] in *. apply orb_false_iff in Hg as [Hcd Hg].
  rewrite Hcd. now apply IH.
Qed.

(** Without two whitespace characters in a row there is nothing to split at. *)
Lemma re_split_gap_whole cur s :
  has_gap s = false -> re_split_gap false cur s = [rev cur ++ s].
Proof.
  revert cur. induction s as [|c t IH]; intros cur Hg.
  - simpl. now rewrite app_nil_r.
  - assert (Hnext : re_split_gap false (c :: cur) t = [rev cur ++ c :: t]).
    { rewrite IH by (now apply has_gap_cons in Hg). simpl.
      now rewrite <- app_assoc. }
    cbn [re_split_gap]. destruct (isspace c) eqn:Hc; [|exact Hnext].
    destruct t as [|d t]; [exact Hnext|].
    cbn [has_gap] in Hg. rewrite Hc in Hg.
    apply orb_false_iff in Hg as [Hd _]. cbn in Hd. rewrite Hd. exact Hnext.
Qed.

End SplitFacts.

Section ParserEdges.

Variable py : Python.

Lemma parse_line_fields line v :
  parse_line py line = Some v ->
  exists p0 p1 p2,
    v = Values (Py.re_sub_nonword py p0)
               (Text.remove_char Text.NUL (Text.strip p1))
               (Text.remove_char Text.NUL (Text.strip p2)).
Proof.
  unfold parse_line.
  destruct (Text.lstrip_chars _ _); [discriminate|].
  match goal with |- split_fields py ?l = _ -> _ => generalize l end.
  intros processed. unfold split_fields.
  destruct (Text.re_split_spaces processed) as [|p0 [|p1 [|p2 [|? ?]]]]; try discriminate.
  intros [= <-]. now exists p0, p1, p2.
Qed.

Lemma remove_char_gone c s : c ∉ Text.remove_char c s.
Proof.
  unfold Text.remove_char. rewrite list_elem_of_In, filter_In.
  intros [_ Hc]. now rewrite N.eqb_refl in Hc.
Qed.

(** X1: the first line of the output is dropped whatever it holds: an output
    that is a single line once stripped, be it a header or the line of a
    distribution, gives no row at all. *)
Theorem single_line_gives_no_row output :
  Text.LF ∉ Text.strip output -> parse_listing py output = [].
Proof.
  intros Hlf. unfold parse_listing, listing_lines.
  now rewrite SplitFacts.split_without_separator.
Qed.

(** X2: no field of a row holds a NUL character: the name loses it with every
    other character outside the word class, state and version by
    [replace]. *)
Theorem rows_hold_no_nul output :
  Forall (fun v => (Text.NUL ∉ name v) /\ (Text.NUL ∉ state v) /\ (Text.NUL ∉ version v))
         (parse_listing py output).
Proof.
  apply Forall_forall. intros v Hv.
  apply parse_listing_row in Hv as [line Hline].
  apply parse_line_fields in Hline as (p0 & p1 & p2 & ->). cbn [name state version].
  split; [|split; apply remove_char_gone].
  intros Hnul. apply re_sub_nonword_keeps in Hnul as [_ [Hw | [Hd | Hh]]].
  - now apply is_word_visible in Hw as [_ Hw].
  - discriminate.
  - discriminate.
Qed.

(** X3: fields are told apart by runs of two or more whitespace characters
    only: a line in which no two whitespace characters stand in a row, such
    as ["Ubuntu Stopped 2"], gives no row. *)
Theorem single_spaced_line_gives_no_row line :
  has_gap line = false -> parse_line py line = None.
Proof.
  intros Hg. unfold parse_line.
  set (stripped := Text.strip line).
  assert (Hstripped : has_gap stripped = false).
  { unfold stripped, Text.strip.
    eapply SplitFacts.has_gap_prefix; [apply SplitFacts.rstrip_with_prefix|].
    eapply SplitFacts.has_gap_suffix; [apply SplitFacts.lstrip_with_suffix|exact Hg]. }
  set (cleaned := Text.lstrip_chars [Text.BOM] stripped).
  assert (Hcleaned : has_gap cleaned = false).
  { eapply SplitFacts.has_gap_suffix; [apply SplitFacts.lstrip_with_suffix|exact Hstripped]. }
  destruct cleaned as [|c rest] eqn:Ecleaned; [reflexivity|].
  match goal with |- split_fields py ?l = None => assert (Hprocessed : has_gap l = false) end.
  { destruct (Text.startswith (c :: rest) [Text.STAR]); [|exact Hcleaned].
    cbn [drop].
    eapply SplitFacts.has_gap_suffix; [apply SplitFacts.lstrip_with_suffix|].
    now apply SplitFacts.has_gap_cons in Hcleaned. }
  unfold split_fields, Text.re_split_spaces.
  now rewrite SplitFacts.re_split_gap_whole.
Qed.

End ParserEdges.

(** ** Further properties of the methods *)

Lemma format_fields_plain kwargs out template :
  brace_free template = true ->
  Py.format_fields kwargs Py.InText out template = Py.Formatted (rev out ++ template).
Proof.
  revert out. induction template as [|c t IH]; intros out Hplain.
  - simpl. now rewrite app_nil_r.
  - cbn [brace_free forallb] in Hplain.
    apply andb_true_iff in Hplain as [Hc Ht].
    apply andb_true_iff in Hc as [Hopen Hclose].
    apply negb_true_iff in Hopen, Hclose.
    cbn [Py.format_fields]. rewrite Hopen, Hclose.
    rewrite IH by exact Ht. simpl. now rewrite <- app_assoc.
Qed.

Section Operations.

Context {S : Type} `{Host S} `{Console S}.
Variable py : Python.

Implicit Types (w : @App S) (ev : event).

(** *** [get_string] and [run_command] *)

(** X4: a key the string table lacks is shown as it stands: [get_string] gives
    back the fallback, or the key when there is none, as long as that text
    holds no brace for [format] to read; the window is not touched. *)
Theorem missing_key_shows_fallback w key fallback kwargs :
  lang_data w !! key = None ->
  brace_free (default key fallback) = true ->
  get_string py key fallback kwargs w = (Returns (default key fallback), w).
Proof.
  intros Hmissing Hplain. rewrite get_string_eq, Hmissing.
  change (match fallback with None => key | Some f => f end) with (default key fallback).
  cbn [default]. unfold Py.format.
  now rewrite (format_fields_plain kwargs [] _ Hplain).
Qed.

(** The trace after [run_command]: its own [Run] and nothing else. *)
Lemma run_command_trace command w :
  trace (exec (run_command py command) w) = trace w ++ run_events command.
Proof.
  destruct (run_command_frame py command w)
    as (_ & _ & _ & _ & _ & _ & Hw).
  unfold run_events.
  destruct (argv command) as [args|] eqn:Hargs.
  - assert (Hran : exec (run_command py command) w
                   = ran args (snd (subprocess_run args (host w))) w).
    { unfold exec, run_command. rewrite Hargs.
      pose proof (run_command_text py args w) as Htext.
      unfold run_command in Htext. rewrite argv_text in Htext. rewrite Htext.
      destruct (subprocess_run args (host w)) as [r s].
      destruct r; try reflexivity.
      destruct (fst (get_string py (lit "error_wsl_not_found") None [] w)); reflexivity. }
    rewrite Hran. reflexivity.
  - unfold exec, run_command. rewrite Hargs. cbn. now rewrite app_nil_r.
Qed.

(** X5: [run_command] as its callers see it: it adds its one invocation to the
    trace, none when an argument is no text; it leaves rows, selection,
    buttons, shortcut and stored result alone; and a tool that exits with
    an error makes it return, not raise, a text the callers' test
    [startswith("Error:")] recognises, with the tool's own message at its
    end. *)
Theorem run_command_contract command w :
  let w' := exec (run_command py command) w in
  trace w' = trace w ++ run_events command
  /\ (tree w' = tree w /\ selection w' = selection w /\ widgets w' = widgets w
      /\ shortcut_command_var w' = shortcut_command_var w
      /\ rename_result w' = rename_result w)
  /\ (forall args stderr s,
        argv command = Some args ->
        subprocess_run args (host w) = (CalledProcessError stderr, s) ->
        exists result,
          fst (run_command py command w) = Returns result
          /\ is_error result = true
          /\ result = lit "Error: Command Error" ++ [Text.LF] ++ stderr).
Proof.
  cbv zeta. split; [apply run_command_trace|]. split.
  - destruct (run_command_frame py command w) as (_ & Ht & Hs & Hb & Hc & Hr & _).
    now repeat split.
  - intros args stderr s Hargs Hrun.
    exists (lit "Error: Command Error" ++ [Text.LF] ++ stderr).
    split; [|split; reflexivity].
    pose proof (run_command_text py args w) as Htext.
    unfold run_command in *. rewrite argv_text in Htext. rewrite Hargs, Htext, Hrun.
    reflexivity.
Qed.

(** *** [on_item_select] and the buttons *)

(** X6: the buttons after [on_item_select]. With a row selected the terminal
    button is enabled, start and rename are enabled exactly when the state
    of the row is [Stopped], and stop exactly when it is not, so start and
    stop are never enabled together; this holds even when the method then
    stops with a [TypeError]. With nothing selected all four are disabled
    and the shortcut is empty. *)
Theorem buttons_follow_state w :
  let b := widgets (exec (on_item_select py) w) in
  match selected w with
  | Some item =>
      terminal_button b = normal
      /\ (start_button b = normal <-> state item = lit "Stopped")
      /\ (rename_button b = normal <-> state item = lit "Stopped")
      /\ (stop_button b = normal <-> state item <> lit "Stopped")
  | None =>
      b = all_disabled
      /\ shortcut_command_var (exec (on_item_select py) w) = []
  end.
Proof.
  cbv zeta. unfold exec.
  destruct (selected w) as [item|] eqn:Hsel.
  - rewrite (on_item_select_selected py w item Hsel). cbv zeta.
    assert (Hwidgets :
      widgets (snd (match Py.convert_stringval py (name item) with
                    | VStr s =>
                        (Returns tt,
                         set_shortcut_command_var
                           (if Text.contains [Text.SPACE] s
                            then quoted_command (VStr s)
                            else plain_command (VStr s))
                           (set_widgets (buttons_for (bool_decide
                              (Py.convert_stringval py (state item)
                               = VStr (lit "Stopped")))) w))
                    | VInt _ =>
                        (Raises TypeError,
                         set_widgets (buttons_for (bool_decide
                           (Py.convert_stringval py (state item)
                            = VStr (lit "Stopped")))) w)
                    end))
      = buttons_for (bool_decide (Py.convert_stringval py (state item)
                                  = VStr (lit "Stopped")))).
    { destruct (Py.convert_stringval py (name item)); reflexivity. }
    rewrite Hwidgets.
    destruct (bool_decide (Py.convert_stringval py (state item) = VStr (lit "Stopped")))
      eqn:Hstopped; cbn.
    + apply (stopped_text py) in Hstopped. repeat split; try tauto; try discriminate.
    + assert (Hstate : state item <> lit "Stopped").
      { intros Heq. apply bool_decide_eq_false in Hstopped. apply Hstopped.
        unfold Py.convert_stringval. rewrite Heq.
        assert (Hint : Py.int py (lit "Stopped") = None) by (vm_compute; reflexivity).
        now rewrite Hint. }
      repeat split; try tauto; try discriminate.
  - rewrite (on_item_select_none py w Hsel). split; reflexivity.
Qed.

End Operations.

Section Refresh.

Context {S : Type} `{Host S}.
Variable py : Python.

Implicit Types (w : @App S) (ev : event).

(** X7: a refresh that reads a listing returns normally, whatever the lines
    look like, and leaves nothing selected, the four buttons disabled and
    the shortcut empty. *)
Theorem refresh_resets_selection w output s :
  subprocess_run list_command (host w) = (Completed output, s) ->
  Text.startswith output (lit "Error:") = false ->
  let w' := exec (populate_wsl_list py) w in
  fst (populate_wsl_list py w) = Returns tt
  /\ host w' = s /\ selected w' = None
  /\ widgets w' = all_disabled /\ shortcut_command_var w' = [].
Proof.
  intros Hrun Hok. cbv zeta. unfold exec.
  rewrite populate_wsl_list_eq, run_command_text.
  change (host (cleared w)) with (host w). rewrite Hrun, Hok.
  rewrite bool_decide_true by reflexivity.
  repeat split.
Qed.

(** X8: a refresh that fails (the command raises, or what it returns starts
    with ["Error:"]) returns before [on_item_select] is reached: rows and
    selection are gone, but the buttons and the shortcut stay as they
    were, those of the row selected before included. *)
Theorem failed_refresh_keeps_buttons w r s :
  subprocess_run list_command (host w) = (r, s) ->
  (forall stdout, r = Completed stdout -> Text.startswith stdout (lit "Error:") = true) ->
  let w' := exec (populate_wsl_list py) w in
  tree w' = [] /\ selection w' = None
  /\ widgets w' = widgets w /\ shortcut_command_var w' = shortcut_command_var w.
Proof.
  intros Hrun Hfail. cbv zeta. unfold exec.
  rewrite populate_wsl_list_eq, run_command_text.
  change (host (cleared w)) with (host w). rewrite Hrun.
  destruct r as [stdout|stderr| |e].
  - rewrite (Hfail stdout eq_refl). repeat split.
  - repeat split.
  - destruct (fst (get_string py (lit "error_wsl_not_found") None [] (cleared w)));
      repeat split.
  - repeat split.
Qed.

End Refresh.

Section RenameGate.

Context {S : Type}.
Variable py : Python.

Implicit Types (w : @App S) (ev : event).

Lemma quiet_until_quiet {A} ev (m : @M S A) : quiet m -> quiet_until ev m.
Proof.
  intros Hq w. destruct (Hq w) as (_ & _ & _ & _ & evs & Htrace & Hevs).
  exists evs. split; [exact Hevs | now left].
Qed.

Lemma quiet_until_emit ev : quiet_until ev (emit ev : @M S unit).
Proof.
  intros w. exists []. split; [reflexivity | right; reflexivity].
Qed.

Lemma quiet_until_bind {A B} ev (m : @M S A) (k : A -> @M S B) :
  quiet m -> (forall a, quiet_until ev (k a)) -> quiet_until ev (bind m k).
Proof.
  intros Hm Hk w. unfold bind.
  destruct (Hm w) as (_ & _ & _ & _ & evs & Htrace & Hevs).
  destruct (m w) as [[a|e] w1]; cbn [snd] in *.
  - destruct (Hk a w1) as (pre & Hpre & Hk1).
    exists (evs ++ pre). split; [now rewrite forallb_app, Hevs, Hpre|].
    rewrite Htrace in Hk1. rewrite <- !app_assoc in *.
    destruct Hk1 as [Hk1|Hk1]; [left | right]; exact Hk1.
  - exists evs. split; [exact Hevs | now left].
Qed.

Lemma quiet_show_progress_window : quiet (show_progress_window py : @M S unit).
Proof.
  unfold show_progress_window.
  apply quiet_bind; [apply quiet_get_string | intros title].
  apply quiet_bind; [apply quiet_get_string | intros message].
  now apply quiet_emit.
Qed.

(** An external event a method added is the one it was waiting to add. *)
Lemma quiet_until_external {A} ev (m : @M S A) w ev' :
  quiet_until ev m -> ev' ∈ since w (snd (m w)) -> is_external ev' = true -> ev' = ev.
Proof.
  intros Hm Hin Hext. destruct (Hm w) as (pre & Hpre & [Htrace|Htrace]).
  - rewrite (since_app _ _ _ Htrace) in Hin.
    rewrite forallb_forall in Hpre. apply list_elem_of_In, Hpre in Hin.
    now rewrite Hext in Hin.
  - rewrite (since_app _ _ _ Htrace) in Hin.
    apply elem_of_app in Hin as [Hin|Hin].
    + rewrite forallb_forall in Hpre. apply list_elem_of_In, Hpre in Hin.
      now rewrite Hext in Hin.
    + now apply list_elem_of_singleton in Hin.
Qed.

Lemma quiet_no_external {A} (m : @M S A) w ev :
  quiet m -> ev ∈ since w (snd (m w)) -> is_external ev = false.
Proof.
  intros Hm Hin. destruct (Hm w) as (_ & _ & _ & _ & evs & Htrace & Hevs).
  rewrite (since_app _ _ _ Htrace) in Hin.
  rewrite forallb_forall in Hevs. apply list_elem_of_In, Hevs in Hin.
  now apply negb_true_iff in Hin.
Qed.

Lemma nothing_to_rename_false reply old_name :
  nothing_to_rename reply old_name = false ->
  exists new_name, reply = Some new_name /\ Text.strip new_name <> []
                   /\ VStr new_name <> old_name.
Proof.
  destruct reply as [new_name|]; [|discriminate]. cbn [nothing_to_rename].
  intros Hn. apply orb_false_iff in Hn as [Hn Hsame].
  apply orb_false_iff in Hn as [_ Hblank].
  exists new_name. split; [reflexivity|]. split.
  - intros Hs. now rewrite Hs in Hblank.
  - now apply bool_decide_eq_false in Hsame.
Qed.

(** X9: the worker is started only for a request that passed every test of
    [rename_distro]: the selected row is in state [Stopped], the dialog gave
    a name that is not blank, is not the old name, holds no space and is
    none of the names of the tree, and the user confirmed; the thread then
    gets the name of the selected row, as the tree view hands it back, and
    that new name. *)
Theorem started_rename_passed_the_gate w item reply confirmed old_name new_name :
  selected w = Some item ->
  ThreadStart old_name new_name ∈ since w (exec (rename_distro py reply confirmed) w) ->
  state item = lit "Stopped" /\ reply = Some new_name /\ confirmed = true
  /\ old_name = Py.convert_stringval py (name item)
  /\ Text.strip new_name <> [] /\ VStr new_name <> old_name
  /\ (Text.SPACE ∉ new_name) /\ (VStr new_name ∉ current_names py w).
Proof.
  intros Hsel. unfold exec, rename_distro. unfold bind at 1, get at 1. rewrite Hsel.
  unfold item_values.
  set (old := Py.convert_stringval py (name item)).
  destruct (bool_decide (Py.convert_stringval py (state item) = VStr (lit "Stopped")))
    eqn:Hstopped; cbn [negb].
  2:{ intros Hin. apply (quiet_no_external _ _ _ (quiet_showerror py _ _)) in Hin.
      discriminate. }
  destruct (nothing_to_rename reply old) eqn:Hnothing.
  { intros Hin. eapply quiet_no_external in Hin; [discriminate|].
    apply quiet_bind; [apply quiet_get_string | intros title].
    apply quiet_bind; [apply quiet_get_string | intros prompt].
    apply quiet_bind; [now apply quiet_emit | intros _].
    cbv beta iota. apply quiet_ret. }
  apply nothing_to_rename_false in Hnothing as (n & -> & Hblank & Hother).
  change (default [] (Some n)) with n.
  destruct (Text.contains [Text.SPACE] n) eqn:Hspace.
  { intros Hin. eapply quiet_no_external in Hin; [discriminate|].
    apply quiet_bind; [apply quiet_get_string | intros title].
    apply quiet_bind; [apply quiet_get_string | intros prompt].
    apply quiet_bind; [now apply quiet_emit | intros _].
    cbv beta iota. apply quiet_showerror. }
  destruct (bool_decide (VStr n ∈ current_names py w)) eqn:Hdup.
  { intros Hin. eapply quiet_no_external in Hin; [discriminate|].
    apply quiet_bind; [apply quiet_get_string | intros title].
    apply quiet_bind; [apply quiet_get_string | intros prompt].
    apply quiet_bind; [now apply quiet_emit | intros _].
    cbv beta iota. apply quiet_showerror. }
  destruct confirmed; cbn [negb].
  2:{ intros Hin. eapply quiet_no_external in Hin; [discriminate|].
      apply quiet_bind; [apply quiet_get_string | intros title].
      apply quiet_bind; [apply quiet_get_string | intros prompt].
      apply quiet_bind; [now apply quiet_emit | intros _].
      cbv beta iota.
      apply quiet_bind; [apply quiet_get_string | intros title'].
      apply quiet_bind; [apply quiet_get_string | intros message].
      apply quiet_bind; [now apply quiet_emit | intros _].
    cbv beta iota. apply quiet_ret. }
  intros Hin. eapply (quiet_until_external (ThreadStart old n)) in Hin; [|clear Hin|reflexivity].
  - injection Hin as -> ->.
    apply (stopped_text py) in Hstopped. apply bool_decide_eq_false in Hdup.
    repeat split; try assumption.
    intros Hc. apply char_contains in Hc. congruence.
  - apply quiet_until_bind; [apply quiet_get_string | intros title].
    apply quiet_until_bind; [apply quiet_get_string | intros prompt].
    apply quiet_until_bind; [now apply quiet_emit | intros _].
    cbv beta iota.
    apply quiet_until_bind; [apply quiet_get_string | intros title'].
    apply quiet_until_bind; [apply quiet_get_string | intros message].
    apply quiet_until_bind; [now apply quiet_emit | intros _].
    cbv beta iota.
    apply quiet_until_bind; [apply quiet_show_progress_window | intros _].
    apply quiet_until_emit.
Qed.

End RenameGate.

Section Worker.

Context {S : Type} `{Host S}.
Variable py : Python.

Implicit Types (w : @App S) (ev : event).

Lemma remove_trace path w :
  trace (snd (remove path w)) = trace w ++ [Remove path].
Proof.
  unfold remove, bind, emit, modify, get, raise. cbn [host log].
  destruct (os_remove path (host w)); reflexivity.
Qed.

Lemma trace_step w w1 w2 evs1 evs2 :
  trace w1 = trace w ++ evs1 -> trace w2 = trace w1 ++ evs2 ->
  since w w2 = evs1 ++ evs2.
Proof.
  intros T1 T2. apply since_app. rewrite T2, T1. now rewrite app_assoc.
Qed.

(** X10: whatever the tool and the file system answer, what the worker does to
    the outside is an initial part of one fixed sequence: export,
    unregister, [makedirs], import, removal of the archive; or it is export,
    unregister and the removal, when the unregistration is refused. It
    never repeats a step, never imports before it unregistered and never
    touches a file other than the archive. *)
Theorem worker_follows_plan w old_name new_name :
  let w' := exec (_rename_worker py old_name new_name) w in
  exists dir,
    since w w' `prefix_of` worker_plan w old_name new_name dir
    \/ since w w' = run_events (export_command w old_name)
                    ++ run_events (unregister_command old_name)
                    ++ [Remove (export_path w old_name)].
Proof.
  cbv zeta. remember (exec (_rename_worker py old_name new_name) w) as w' eqn:Hw'.
  unfold exec, _rename_worker in Hw'. unfold bind at 1 in Hw'.
  change (get w) with (Returns w, w) in Hw'. cbv beta iota in Hw'.
  fold (export_path w old_name) in Hw'. fold (export_command w old_name) in Hw'.
  unfold worker_plan.
  set (archive := export_path w old_name) in *.
  generalize (run_command_trace py (export_command w old_name) w).
  generalize (run_events (export_command w old_name)). intros E T1.
  unfold exec in T1. unfold bind at 1 in Hw'.
  destruct (run_command py (export_command w old_name) w) as [[r1|e1] w1];
    cbn [snd] in T1, Hw'.
  2:{ subst w'. exists []. left. rewrite (since_app _ _ _ T1). now apply prefix_app_r. }
  destruct (is_error r1).
  { subst w'. exists []. left. rewrite (since_app w _ E) by exact T1.
    now apply prefix_app_r. }
  fold (unregister_command old_name) in Hw'.
  generalize (run_command_trace py (unregister_command old_name) w1).
  generalize (run_events (unregister_command old_name)). intros U T2.
  unfold exec in T2. unfold bind at 1 in Hw'.
  destruct (run_command py (unregister_command old_name) w1) as [[r2|e2] w2];
    cbn [snd] in T2, Hw'.
  2:{ subst w'. exists []. left. rewrite (trace_step _ _ _ _ _ T1 T2).
      rewrite app_assoc. now apply prefix_app_r. }
  destruct (is_error r2).
  { unfold bind at 1, modify at 1 in Hw'. cbv beta iota in Hw'.
    exists []. right. subst w'.
    eapply eq_trans; [eapply trace_step; [|apply remove_trace]|].
    - cbn [trace set_rename_result]. rewrite T2, T1. now rewrite <- app_assoc.
    - now rewrite <- app_assoc. }
  unfold bind at 1 in Hw'. change (get w2) with (Returns w2, w2) in Hw'.
  cbv beta iota in Hw'.
  fold (import_dir w2 new_name) in Hw'.
  set (dir := import_dir w2 new_name) in *.
  fold (import_command new_name dir archive) in Hw'.
  exists dir. left.
  unfold bind at 1, makedirs, bind at 1, emit at 1, modify at 1 in Hw'.
  cbv beta iota in Hw'. unfold bind at 1 in Hw'.
  change (get (log (Makedirs dir) w2)) with
    (Returns (log (Makedirs dir) w2), log (Makedirs dir) w2) in Hw'.
  cbv beta iota in Hw'. cbn [host log] in Hw'.
  set (w3 := log (Makedirs dir) w2) in *.
  assert (T3 : trace w3 = trace w ++ E ++ U ++ [Makedirs dir]).
  { subst w3. cbn [trace log]. rewrite T2, T1. now rewrite <- !app_assoc. }
  destruct (os_makedirs dir (host w2)) as [s3|].
  2:{ unfold raise in Hw'. cbn [snd] in Hw'. subst w'.
      rewrite (since_app _ _ _ T3).
      eexists. rewrite <- ?app_assoc. reflexivity. }
  unfold modify at 1 in Hw'. cbv beta iota in Hw'.
  set (w3' := set_host s3 w3) in *.
  generalize (run_command_trace py (import_command new_name dir archive) w3').
  generalize (run_events (import_command new_name dir archive)). intros I T4.
  unfold exec in T4. unfold bind at 1 in Hw'.
  destruct (run_command py (import_command new_name dir archive) w3') as [[r4|e4] w4];
    cbn [snd] in T4, Hw'.
  2:{ subst w'. rewrite (trace_step w w3' w4 _ I T3 T4).
      exists [Remove archive]. now rewrite <- !app_assoc. }
  assert (T4' : trace w4 = trace w ++ E ++ U ++ [Makedirs dir] ++ I).
  { rewrite T4. change (trace w3') with (trace w3). rewrite T3.
    now rewrite <- !app_assoc. }
  assert (Hfull : forall w5 w6 : @App S,
            trace w5 = trace w4 -> trace w6 = trace w5 ++ [Remove archive] ->
            since w w6 `prefix_of` E ++ U ++ [Makedirs dir] ++ I ++ [Remove archive]).
  { intros w5 w6 T5 T6. rewrite T5 in T6.
    rewrite (trace_step w w4 w6 _ _ T4' T6). now rewrite <- !app_assoc. }
  destruct (is_error r4).
  - unfold bind at 1, modify at 1 in Hw'. cbv beta iota in Hw'. subst w'.
    eapply Hfull; [|apply remove_trace]. reflexivity.
  - unfold bind at 1 in Hw'.
    pose proof (remove_trace archive w4) as T5.
    destruct (remove archive w4) as [[[]|e5] w5]; cbn [snd] in T5, Hw'.
    + unfold bind, modify in Hw'.
      destruct (get_string py (lit "rename_success_message") None
                  [(lit "new_name", new_name)] w5) as [[message|e6] w6] eqn:Hmsg.
      * pose proof (get_string_state py (lit "rename_success_message") None
                      [(lit "new_name", new_name)] w5) as Hw6.
        rewrite Hmsg in Hw6. cbn [snd] in Hw6, Hw'. subst w6 w'.
        apply (Hfull w4 _ eq_refl). exact T5.
      * pose proof (get_string_state py (lit "rename_success_message") None
                      [(lit "new_name", new_name)] w5) as Hw6.
        rewrite Hmsg in Hw6. cbn [snd] in Hw6, Hw'. subst w6 w'.
        apply (Hfull w4 _ eq_refl). exact T5.
    + subst w'. apply (Hfull w4 _ eq_refl). exact T5.
Qed.

(** The worker up to its import step, when export, unregistration and
    [makedirs] went through. *)
Lemma worker_reaches_import w old_name new_name r1 w1 r2 w2 s3 :
  run_command py (export_command w old_name) w = (Returns r1, w1) ->
  is_error r1 = false ->
  run_command py (unregister_command old_name) w1 = (Returns r2, w2) ->
  is_error r2 = false ->
  os_makedirs (import_dir w2 new_name) (host w2) = Some s3 ->
  _rename_worker py old_name new_name w
  = bind (run_command py (import_command new_name (import_dir w2 new_name)
                            (export_path w old_name)))
      (fun result =>
         if is_error result then
           bind (modify (set_rename_result
                           (Some (lit "Import failed:" ++ [Text.LF] ++ result))))
                (fun _ => remove (export_path w old_name))
         else
           bind (remove (export_path w old_name))
                (fun _ =>
                   bind (get_string py (lit "rename_success_message") None
                           [(lit "new_name", new_name)])
                        (fun message => modify (set_rename_result (Some message)))))
      (set_host s3 (log (Makedirs (import_dir w2 new_name)) w2)).
Proof.
  intros Hexport Hok1 Hunregister Hok2 Hdirs.
  unfold _rename_worker. unfold bind at 1.
  change (get w) with (Returns w, w). cbv beta iota.
  fold (export_path w old_name). fold (export_command w old_name).
  unfold bind at 1. rewrite Hexport, Hok1.
  fold (unregister_command old_name).
  unfold bind at 1. rewrite Hunregister, Hok2.
  unfold bind at 1. change (get w2) with (Returns w2, w2). cbv beta iota.
  fold (import_dir w2 new_name).
  fold (import_command new_name (import_dir w2 new_name) (export_path w old_name)).
  unfold bind at 1, makedirs, bind at 1, emit at 1, modify at 1.
  cbv beta iota. unfold bind at 1.
  change (get (log (Makedirs (import_dir w2 new_name)) w2)) with
    (Returns (log (Makedirs (import_dir w2 new_name)) w2),
     log (Makedirs (import_dir w2 new_name)) w2).
  cbv beta iota. cbn [host log]. rewrite Hdirs.
  reflexivity.
Qed.

(** X11: when the import fails, the distribution is already unregistered, and
    the worker still removes the archive it was exported to: it stores
    ["Import failed:"], a line break and the error text, and calls
    [os.remove] on the archive as the last thing it does. *)
Theorem failed_import_removes_archive w old_name new_name r1 w1 r2 w2 s3 r4 w4 :
  run_command py (export_command w old_name) w = (Returns r1, w1) ->
  is_error r1 = false ->
  run_command py (unregister_command old_name) w1 = (Returns r2, w2) ->
  is_error r2 = false ->
  os_makedirs (import_dir w2 new_name) (host w2) = Some s3 ->
  run_command py (import_command new_name (import_dir w2 new_name) (export_path w old_name))
    (set_host s3 (log (Makedirs (import_dir w2 new_name)) w2)) = (Returns r4, w4) ->
  is_error r4 = true ->
  let w' := exec (_rename_worker py old_name new_name) w in
  since w4 w' = [Remove (export_path w old_name)]
  /\ rename_result w' = Some (lit "Import failed:" ++ [Text.LF] ++ r4)
  /\ host w' = match os_remove (export_path w old_name) (host w4) with
               | Some s => s
               | None => host w4
               end.
Proof.
  intros Hexport Hok1 Hunregister Hok2 Hdirs Himport Hfailed. cbv zeta.
  set (stored := log (Remove (export_path w old_name))
                   (set_rename_result
                      (Some (lit "Import failed:" ++ [Text.LF] ++ r4)) w4)).
  assert (Hw : exec (_rename_worker py old_name new_name) w
               = match os_remove (export_path w old_name) (host w4) with
                 | Some s => set_host s stored
                 | None => stored
                 end).
  { unfold exec.
    rewrite (worker_reaches_import w old_name new_name r1 w1 r2 w2 s3
               Hexport Hok1 Hunregister Hok2 Hdirs).
    unfold bind at 1. rewrite Himport, Hfailed.
    unfold bind, modify, remove, emit, modify, get, bind, raise.
    cbn [host log set_rename_result].
    destruct (os_remove (export_path w old_name) (host w4)); reflexivity. }
  rewrite Hw.
  destruct (os_remove (export_path w old_name) (host w4)) as [s|];
    (split; [apply since_app; reflexivity | split; reflexivity]).
Qed.

(** X12: when every step goes through, the worker has done exactly its plan,
    export, unregistration, [makedirs], import and the removal of the
    archive, in this order, and stores the message of success with the new
    name in it. *)
Theorem successful_rename_runs_the_plan w old_name new_name r1 w1 r2 w2 s3 r4 w4 s5 message :
  run_command py (export_command w old_name) w = (Returns r1, w1) ->
  is_error r1 = false ->
  run_command py (unregister_command old_name) w1 = (Returns r2, w2) ->
  is_error r2 = false ->
  os_makedirs (import_dir w2 new_name) (host w2) = Some s3 ->
  run_command py (import_command new_name (import_dir w2 new_name) (export_path w old_name))
    (set_host s3 (log (Makedirs (import_dir w2 new_name)) w2)) = (Returns r4, w4) ->
  is_error r4 = false ->
  os_remove (export_path w old_name) (host w4) = Some s5 ->
  fst (get_string py (lit "rename_success_message") None [(lit "new_name", new_name)] w4)
  = Returns message ->
  let w' := exec (_rename_worker py old_name new_name) w in
  fst (_rename_worker py old_name new_name w) = Returns tt
  /\ since w w' = worker_plan w old_name new_name (import_dir w2 new_name)
  /\ rename_result w' = Some message
  /\ host w' = s5.
Proof.
  intros Hexport Hok1 Hunregister Hok2 Hdirs Himport Hok4 Hremove Hmessage. cbv zeta.
  set (archive := export_path w old_name) in *.
  set (dir := import_dir w2 new_name) in *.
  assert (Hw : _rename_worker py old_name new_name w
               = (Returns tt,
                  set_rename_result (Some message)
                    (set_host s5 (log (Remove archive) w4)))).
  { rewrite (worker_reaches_import w old_name new_name r1 w1 r2 w2 s3
               Hexport Hok1 Hunregister Hok2 Hdirs).
    fold archive dir. unfold bind at 1. rewrite Himport, Hok4.
    unfold bind at 1, remove, bind at 1, emit at 1, modify at 1.
    cbv beta iota. unfold bind at 1.
    change (get (log (Remove archive) w4))
      with (Returns (log (Remove archive) w4), log (Remove archive) w4).
    cbv beta iota. cbn [host log]. rewrite Hremove.
    unfold modify at 1. cbv beta iota. unfold bind at 1.
    rewrite get_string_eq. rewrite get_string_eq in Hmessage.
    cbn [fst] in Hmessage.
    change (lang_data (set_host s5 (log (Remove archive) w4))) with (lang_data w4).
    rewrite Hmessage. reflexivity. }
  unfold exec. rewrite Hw. cbn [fst snd].
  split; [reflexivity|]. split; [|split; reflexivity].
  pose proof (run_command_trace py (export_command w old_name) w) as T1.
  pose proof (run_command_trace py (unregister_command old_name) w1) as T2.
  pose proof (run_command_trace py (import_command new_name dir archive)
                (set_host s3 (log (Makedirs dir) w2))) as T4.
  unfold exec in T1, T2, T4. rewrite Hexport in T1. rewrite Hunregister in T2.
  rewrite Himport in T4. cbn [snd] in T1, T2, T4. cbn [trace set_host log] in T4.
  apply since_app. cbn [trace set_rename_result set_host log].
  rewrite T4, T2, T1. unfold worker_plan. fold archive.
  now rewrite <- !app_assoc.
Qed.

(** X13: the worker stores a result only once a step has answered: when the
    export command raises (a name that the tree view handed back as an
    integer, an exception of [subprocess.run] that [run_command] does not
    catch, a message that cannot be formatted), the worker ends with that
    exception and the result of an earlier rename stays where it was, for
    the next poll to show. *)
Theorem raising_export_stores_nothing w old_name new_name e :
  fst (run_command py (export_command w old_name) w) = Raises e ->
  fst (_rename_worker py old_name new_name w) = Raises e
  /\ rename_result (exec (_rename_worker py old_name new_name) w) = rename_result w
  /\ rename_result (exec (rename_thread py old_name new_name) w) = rename_result w.
Proof.
  intros Hraise.
  destruct (rename_worker_begins py w old_name new_name) as [rest Hbegin].
  destruct (run_command_frame py (export_command w old_name) w)
    as (_ & _ & _ & _ & _ & Hresult & _).
  unfold rename_thread, exec in *. cbn [snd]. rewrite Hbegin. unfold bind.
  destruct (run_command py (export_command w old_name) w) as [[r1|e1] w1];
    cbn [fst snd] in *; [discriminate|].
  injection Hraise as ->. repeat split; exact Hresult.
Qed.

End Worker.

Section Lifecycle.

Context {S : Type} `{Host S} `{Console S}.
Variable py : Python.

Implicit Types (w : @App S) (ev : event).

Lemma populate_wsl_list_run w :
  trace (exec (populate_wsl_list py) w) = trace w ++ [Run list_command].
Proof.
  pose proof (run_command_trace py (map VStr list_command) (cleared w)) as T.
  pose proof (run_command_frame py (map VStr list_command) (cleared w)) as F.
  unfold exec in *. cbv zeta in F. rewrite populate_wsl_list_eq.
  destruct (run_command py (map VStr list_command) (cleared w)) as [[output|e] w1];
    cbn [snd] in *; destruct F as (_ & _ & Hs & _); [|exact T].
  destruct (Text.startswith output (lit "Error:")); [exact T|].
  rewrite bool_decide_true by exact Hs. exact T.
Qed.

(** X14: every refresh invokes the tool exactly once, with [--list --verbose],
    and does nothing else to the outside: whether the listing came or the
    command failed, no message box tells the user. *)
Theorem refresh_runs_listing_once w :
  since w (exec (populate_wsl_list py) w) = [Run list_command].
Proof. apply since_app, populate_wsl_list_run. Qed.

(** X15: a thread that ended without storing a result, when none is left from
    an earlier rename, is passed over in silence: the poll closes the
    progress window and refreshes the list, and shows no message box. *)
Theorem poll_without_result_is_silent w :
  rename_result w = None ->
  since w (exec (check_rename_status py false) w)
  = [ProgressDestroy; Run list_command].
Proof.
  intros Hnone.
  assert (Hw : exec (check_rename_status py false) w
               = exec (populate_wsl_list py) (log ProgressDestroy w)).
  { unfold exec, check_rename_status.
    unfold bind at 1, emit at 1, modify at 1. cbv beta iota.
    unfold bind at 1, get at 1. unfold bind at 1.
    change (rename_result (log ProgressDestroy w)) with (rename_result w).
    rewrite Hnone. reflexivity. }
  rewrite Hw. apply since_app. rewrite populate_wsl_list_run.
  cbn [trace log]. now rewrite <- app_assoc.
Qed.

Lemma run_events_dialogs command : List.filter is_dialog (run_events command) = [].
Proof. unfold run_events. now destruct (argv command). Qed.

Lemma run_events_runs command : List.filter is_run (run_events command) = run_events command.
Proof. unfold run_events. now destruct (argv command). Qed.

(** X16: [terminate_distro]: with no row selected it does nothing. With one, it
    shows no message box, whatever the tool answers; when the user declines
    it runs nothing and leaves host and rows alone; and the commands it runs
    are, in this order and at most, the termination of the selected row and
    the listing. *)
Theorem terminate_asks_then_runs w confirmed :
  let w' := exec (terminate_distro py confirmed) w in
  match selected w with
  | None => w' = w
  | Some item =>
      List.filter is_dialog (since w w') = []
      /\ (confirmed = false ->
          host w' = host w /\ tree w' = tree w
          /\ forallb (fun ev => negb (is_external ev)) (since w w') = true)
      /\ List.filter is_run (since w w')
         `prefix_of` run_events (terminate_command (Py.convert_stringval py (name item)))
                     ++ [Run list_command]
  end.
Proof.
  cbv zeta. remember (exec (terminate_distro py confirmed) w) as w' eqn:Hw'.
  unfold exec, terminate_distro in Hw'. unfold bind at 1 in Hw'.
  change (get w) with (Returns w, w) in Hw'. cbv beta iota in Hw'.
  destruct (selected w) as [item|]; [|exact Hw'].
  unfold item_values in Hw'. cbv beta iota zeta in Hw'.
  set (distro_name := Py.convert_stringval py (name item)) in *.
  fold (terminate_command distro_name) in Hw'.
  assert (Hnothing : w' = w ->
            List.filter is_dialog (since w w') = []
            /\ (confirmed = false ->
                host w' = host w /\ tree w' = tree w
                /\ forallb (fun ev => negb (is_external ev)) (since w w') = true)
            /\ List.filter is_run (since w w')
               `prefix_of` run_events (terminate_command distro_name) ++ [Run list_command]).
  { intros ->. rewrite since_refl. repeat split. apply prefix_nil. }
  unfold bind at 1 in Hw'. rewrite get_string_eq in Hw'.
  destruct (Py.format py _ []) as [title|e]; [|now apply Hnothing].
  unfold bind at 1 in Hw'. rewrite get_string_eq in Hw'.
  destruct (Py.format py _ _) as [message|e]; [|now apply Hnothing].
  unfold bind at 1, emit at 1, modify at 1 in Hw'. cbv beta iota in Hw'.
  set (w0 := log (AskYesNo title message) w) in *.
  assert (T0 : trace w0 = trace w ++ [AskYesNo title message]) by reflexivity.
  destruct confirmed.
  - unfold bind at 1 in Hw'.
    pose proof (run_command_trace py (terminate_command distro_name) w0) as T1.
    unfold exec in T1.
    destruct (run_command py (terminate_command distro_name) w0) as [[result|e] w1];
      cbn [snd] in T1, Hw'; subst w'.
    + pose proof (populate_wsl_list_run w1) as T2. unfold exec in T2.
      assert (Hsince : since w (snd (populate_wsl_list py w1))
                       = [AskYesNo title message]
                         ++ run_events (terminate_command distro_name)
                         ++ [Run list_command]).
      { apply since_app. rewrite T2, T1, T0. now rewrite <- !app_assoc. }
      rewrite Hsince. cbn [app List.filter is_dialog is_run].
      rewrite !List.filter_app, run_events_dialogs, run_events_runs.
      split; [reflexivity|]. split; [discriminate|reflexivity].
    + rewrite (trace_step w w0 w1 _ _ T0 T1).
      cbn [app List.filter is_dialog is_run].
      rewrite run_events_dialogs, run_events_runs.
      split; [reflexivity|]. split; [discriminate|]. now apply prefix_app_r.
  - unfold ret in Hw'. cbn [snd] in Hw'. subst w'. rewrite (since_app _ _ _ T0).
    repeat split. apply prefix_nil.
Qed.

(** X17: [shutdown_all] does not look at what the tool answers: once the user
    has confirmed and [run_command] has returned, with an error text or
    without, the list is refreshed and no message box is shown; when the
    user declines, the question is all that happens. *)
Theorem shutdown_ignores_the_answer w title message result w1 :
  fst (get_string py (lit "confirm_shutdown_title") None [] w) = Returns title ->
  fst (get_string py (lit "confirm_shutdown_message") None [] w) = Returns message ->
  run_command py shutdown_command (log (AskYesNo title message) w) = (Returns result, w1) ->
  since w (exec (shutdown_all py true) w)
  = [AskYesNo title message; Run [lit "wsl"; lit "--shutdown"]; Run list_command]
  /\ since w (exec (shutdown_all py false) w) = [AskYesNo title message].
Proof.
  intros Htitle Hmessage Hrun.
  rewrite get_string_eq in Htitle, Hmessage. cbn [fst] in Htitle, Hmessage.
  split.
  - assert (Hw : exec (shutdown_all py true) w = exec (populate_wsl_list py) w1).
    { unfold exec, shutdown_all.
      unfold bind at 1. rewrite get_string_eq, Htitle.
      unfold bind at 1. rewrite get_string_eq, Hmessage.
      unfold bind at 1, emit at 1, modify at 1. cbv beta iota.
      fold shutdown_command. unfold bind at 1. rewrite Hrun. reflexivity. }
    rewrite Hw. apply since_app. rewrite populate_wsl_list_run.
    pose proof (run_command_trace py shutdown_command (log (AskYesNo title message) w)) as T.
    unfold exec in T. rewrite Hrun in T. cbn [snd] in T. rewrite T.
    cbn [trace log]. now rewrite <- !app_assoc.
  - apply since_app. unfold exec, shutdown_all.
    unfold bind at 1. rewrite get_string_eq, Htitle.
    unfold bind at 1. rewrite get_string_eq, Hmessage.
    reflexivity.
Qed.

Lemma launch_trace command w : trace (snd (launch command w)) = trace w.
Proof.
  unfold launch. destruct (argv command) as [args|]; [|reflexivity].
  unfold bind, get, modify.
  destruct (subprocess_Popen args (host w)) as [[| |e] s]; reflexivity.
Qed.

(** X18: [start_distro] is [open_terminal] followed by the scheduling of a
    refresh: both end the same way and leave the same host, and the one
    event [start_distro] adds, after those of [open_terminal], is the timer
    of 1500 ms, set exactly when the console was launched. *)
Theorem start_is_open_plus_refresh w :
  let scheduled :=
    match selected w with
    | Some item =>
        match fst (launch (shell_command (Py.convert_stringval py (name item))) w) with
        | Returns true => [After 1500]
        | _ => []
        end
    | None => []
    end in
  fst (start_distro py w) = fst (open_terminal py w)
  /\ host (exec (start_distro py) w) = host (exec (open_terminal py) w)
  /\ since w (exec (start_distro py) w)
     = since w (exec (open_terminal py) w) ++ scheduled.
Proof.
  cbv zeta. unfold exec, start_distro, open_terminal.
  unfold bind at 1. unfold bind at 2. unfold bind at 3. unfold bind at 4.
  unfold bind at 5. unfold bind at 6.
  change (get w) with (Returns w, w). cbv beta iota.
  destruct (selected w) as [item|].
  2:{ cbn [fst snd]. rewrite since_refl. repeat split. }
  unfold item_values. cbv beta iota zeta.
  set (command := shell_command (Py.convert_stringval py (name item))).
  pose proof (launch_trace command w) as T.
  unfold bind.
  destruct (launch command w) as [[[|]|e] w1]; cbn [fst snd] in *.
  - unfold emit, modify, ret. cbn [fst snd host log].
    split; [reflexivity|]. split; [reflexivity|].
    rewrite (since_app w w1 []) by (now rewrite app_nil_r).
    apply since_app. cbn [trace log]. now rewrite T.
  - rewrite app_nil_r. repeat split.
  - rewrite app_nil_r. repeat split.
Qed.

(** X19: when the tool is not installed, [start_distro] tells the user so, with
    the message of the key [error_wsl_not_found], and schedules no
    refresh. *)
Theorem start_reports_missing_tool w item distro_name s title message :
  selected w = Some item ->
  Py.convert_stringval py (name item) = VStr distro_name ->
  subprocess_Popen [lit "wsl"; lit "-d"; distro_name; lit "--cd"; lit "~"] (host w)
  = (NoExecutable, s) ->
  fst (get_string py (lit "error_title") None [] w) = Returns title ->
  fst (get_string py (lit "error_wsl_not_found") None [] w) = Returns message ->
  since w (exec (start_distro py) w) = [ShowError title message]
  /\ host (exec (start_distro py) w) = s.
Proof.
  intros Hsel Hname Hlaunch Htitle Hmessage.
  rewrite get_string_eq in Htitle, Hmessage. cbn [fst] in Htitle, Hmessage.
  assert (Hw : exec (start_distro py) w = log (ShowError title message) (set_host s w)).
  { unfold exec, start_distro. unfold bind at 1.
    change (get w) with (Returns w, w). cbv beta iota.
    rewrite Hsel. unfold item_values. cbv beta iota zeta. rewrite Hname.
    unfold bind at 1, launch. cbn [shell_command argv option_map].
    unfold bind at 1. change (get w) with (Returns w, w). cbv beta iota.
    rewrite Hlaunch. unfold bind at 1, modify at 1. cbv beta iota.
    unfold ret at 1. cbv beta iota.
    unfold showerror. unfold bind at 1. rewrite get_string_eq.
    change (lang_data (set_host s w)) with (lang_data w). rewrite Htitle.
    unfold bind at 1. rewrite get_string_eq.
    change (lang_data (set_host s w)) with (lang_data w). rewrite Hmessage.
    reflexivity. }
  rewrite Hw. split; [|reflexivity]. apply since_app. reflexivity.
Qed.

End Lifecycle.

(** ** The further properties at work on the reference machine *)

(** X1, on the reference machine: an output without a header line: the only distribution is lost. *)
Lemma single_line_witness :
  let output := lit "  Ubuntu    Stopped    2" ++ [Text.LF] in
  (Text.LF ∉ Text.strip output)
  /\ parse_listing bare_python output = [].
Proof.
  intros output.
  assert (Hline : Text.LF ∉ Text.strip output)
    by (apply (bool_decide_unpack _); vm_compute; exact I).
  split; [exact Hline|].
  apply (single_line_gives_no_row bare_python output Hline).
Defined.

(** X3, on the reference machine: a line whose fields are one blank apart. *)
Lemma single_spaced_witness :
  let line := lit "Ubuntu Stopped 2" in
  has_gap line = false /\ parse_line bare_python line = None.
Proof.
  intros line. split; [reflexivity|].
  apply (single_spaced_line_gives_no_row bare_python line). reflexivity.
Defined.

(** X4, on the reference machine: the empty string table of the window at start-up. *)
Lemma missing_key_witness :
  let w := at_startup example_machine in
  let key := lit "error_title" in
  (lang_data w !! key = None /\ brace_free (default key None) = true)
  /\ get_string bare_python key None [] w = (Returns (default key None), w).
Proof.
  intros w key.
  split; [split; vm_compute; reflexivity|].
  apply (missing_key_shows_fallback bare_python w key None []); vm_compute; reflexivity.
Defined.

(** X7, on the reference machine: a refresh of the example window, where Ubuntu was selected. *)
Lemma refresh_resets_witness :
  let w := set_widgets (Buttons normal normal normal disabled) example_window in
  let output := listing_of (registered example_machine) in
  let w' := exec (populate_wsl_list bare_python) w in
  (subprocess_run list_command (host w) = (Completed output, example_machine)
   /\ Text.startswith output (lit "Error:") = false)
  /\ fst (populate_wsl_list bare_python w) = Returns tt
  /\ host w' = example_machine /\ selected w' = None
  /\ widgets w' = all_disabled /\ shortcut_command_var w' = [].
Proof.
  intros w output w'.
  split; [split; vm_compute; reflexivity|].
  apply (refresh_resets_selection bare_python w output example_machine);
    vm_compute; reflexivity.
Defined.

(** X8, on the reference machine: the same window once the tool has gone: the buttons of Ubuntu stay. *)
Lemma failed_refresh_buttons_witness :
  let m := Machine [] [lit "Ubuntu"] [] false in
  let w := set_widgets (Buttons normal normal normal disabled)
             (set_selection (Some 0)
                (set_tree [row "Ubuntu" "Stopped" "2"] (at_startup m))) in
  let w' := exec (populate_wsl_list bare_python) w in
  subprocess_run list_command (host w) = (FileNotFoundError, m)
  /\ tree w' = [] /\ selection w' = None
  /\ widgets w' = Buttons normal normal normal disabled
  /\ shortcut_command_var w' = shortcut_command_var w.
Proof.
  intros m w w'.
  split; [reflexivity|].
  apply (failed_refresh_keeps_buttons bare_python w FileNotFoundError m).
  - reflexivity.
  - intros stdout Heq. discriminate Heq.
Defined.

(** X9, on the reference machine: Ubuntu, selected and stopped, is to become Fedora, and the user agrees. *)
Lemma started_rename_witness :
  let w := example_window in
  let item := row "Ubuntu" "Stopped" "2" in
  let w' := exec (rename_distro bare_python (Some (lit "Fedora")) true) w in
  (selected w = Some item
   /\ ThreadStart (VStr (lit "Ubuntu")) (lit "Fedora") ∈ since w w')
  /\ state item = lit "Stopped" /\ Some (lit "Fedora") = Some (lit "Fedora")
  /\ true = true
  /\ VStr (lit "Ubuntu") = Py.convert_stringval bare_python (name item)
  /\ Text.strip (lit "Fedora") <> [] /\ VStr (lit "Fedora") <> VStr (lit "Ubuntu")
  /\ (Text.SPACE ∉ lit "Fedora")
  /\ (VStr (lit "Fedora") ∉ current_names bare_python w).
Proof.
  intros w item w'.
  assert (Hstart : ThreadStart (VStr (lit "Ubuntu")) (lit "Fedora") ∈ since w w').
  { apply list_elem_of_In. vm_compute. repeat (first [left; reflexivity | right]). }
  split; [split; [reflexivity | exact Hstart]|].
  apply (started_rename_passed_the_gate bare_python w item (Some (lit "Fedora")) true
           (VStr (lit "Ubuntu")) (lit "Fedora")).
  - reflexivity.
  - exact Hstart.
Defined.

(** X11, on the reference machine: Ubuntu is to become Debian, which the tool knows already: the import
    fails after Ubuntu was unregistered. *)
Lemma failed_import_witness :
  let w := at_startup example_machine in
  let old_name := VStr (lit "Ubuntu") in
  let new_name := lit "Debian" in
  let w1 := exec (run_command bare_python (export_command w old_name)) w in
  let w2 := exec (run_command bare_python (unregister_command old_name)) w1 in
  let w3 := set_host (host w2) (log (Makedirs (import_dir w2 new_name)) w2) in
  let command := import_command new_name (import_dir w2 new_name) (export_path w old_name) in
  let w4 := exec (run_command bare_python command) w3 in
  let r4 := lit "Error: Command Error" ++ [Text.LF] ++ lit "The operation failed." in
  let w' := exec (_rename_worker bare_python old_name new_name) w in
  (run_command bare_python (export_command w old_name) w = (Returns [], w1)
   /\ run_command bare_python (unregister_command old_name) w1 = (Returns [], w2)
   /\ os_makedirs (import_dir w2 new_name) (host w2) = Some (host w2)
   /\ run_command bare_python command w3 = (Returns r4, w4))
  /\ since w4 w' = [Remove (export_path w old_name)]
  /\ rename_result w' = Some (lit "Import failed:" ++ [Text.LF] ++ r4)
  /\ host w' = match os_remove (export_path w old_name) (host w4) with
               | Some s => s
               | None => host w4
               end.
Proof.
  intros w old_name new_name w1 w2 w3 command w4 r4 w'.
  split; [repeat split; vm_compute; reflexivity|].
  apply (failed_import_removes_archive bare_python w old_name new_name
           [] w1 [] w2 (host w2) r4 w4);
    vm_compute; reflexivity.
Defined.

(** X12, on the reference machine: Ubuntu becomes Fedora under the English string table. *)
Lemma successful_rename_witness :
  let w := english_window in
  let old_name := VStr (lit "Ubuntu") in
  let new_name := lit "Fedora" in
  let w1 := exec (run_command bare_python (export_command w old_name)) w in
  let w2 := exec (run_command bare_python (unregister_command old_name)) w1 in
  let w3 := set_host (host w2) (log (Makedirs (import_dir w2 new_name)) w2) in
  let command := import_command new_name (import_dir w2 new_name) (export_path w old_name) in
  let w4 := exec (run_command bare_python command) w3 in
  let w' := exec (_rename_worker bare_python old_name new_name) w in
  (run_command bare_python (export_command w old_name) w = (Returns [], w1)
   /\ run_command bare_python (unregister_command old_name) w1 = (Returns [], w2)
   /\ os_makedirs (import_dir w2 new_name) (host w2) = Some (host w2)
   /\ run_command bare_python command w3 = (Returns [], w4)
   /\ os_remove (export_path w old_name) (host w4)
      = Some (Machine [] [lit "Debian"; lit "Fedora"] [lit "Debian"] true))
  /\ fst (_rename_worker bare_python old_name new_name w) = Returns tt
  /\ since w w' = worker_plan w old_name new_name (import_dir w2 new_name)
  /\ rename_result w' = Some (lit "Renamed to Fedora.")
  /\ host w' = Machine [] [lit "Debian"; lit "Fedora"] [lit "Debian"] true.
Proof.
  intros w old_name new_name w1 w2 w3 command w4 w'.
  split; [repeat split; vm_compute; reflexivity|].
  apply (successful_rename_runs_the_plan bare_python w old_name new_name
           [] w1 [] w2 (host w2) [] w4
           (Machine [] [lit "Debian"; lit "Fedora"] [lit "Debian"] true)
           (lit "Renamed to Fedora."));
    vm_compute; reflexivity.
Defined.

(** X13, on the reference machine: a distribution named 7, which the tree view hands back as the integer,
    after an earlier rename left its message. *)
Lemma raising_export_witness :
  let w := set_rename_result (Some (lit "Renamed to Fedora."))
             (at_startup example_machine) in
  let w' := exec (_rename_worker bare_python (VInt 7) (lit "seven")) w in
  fst (run_command bare_python (export_command w (VInt 7)) w) = Raises TypeError
  /\ fst (_rename_worker bare_python (VInt 7) (lit "seven") w) = Raises TypeError
  /\ rename_result w' = Some (lit "Renamed to Fedora.")
  /\ rename_result (exec (rename_thread bare_python (VInt 7) (lit "seven")) w)
     = Some (lit "Renamed to Fedora.").
Proof.
  intros w w'.
  split; [reflexivity|].
  apply (raising_export_stores_nothing bare_python w (VInt 7) (lit "seven") TypeError).
  reflexivity.
Defined.

(** X15, on the reference machine: the poll on a window that never stored a result. *)
Lemma silent_poll_witness :
  let w := at_startup example_machine in
  rename_result w = None
  /\ since w (exec (check_rename_status bare_python false) w)
     = [ProgressDestroy; Run list_command].
Proof.
  intros w. split; [reflexivity|].
  apply (poll_without_result_is_silent bare_python w). reflexivity.
Defined.

(** X17, on the reference machine: a shutdown on a machine without the tool: the error text is dropped. *)
Lemma shutdown_witness :
  let m := Machine [] [] [] false in
  let w := at_startup m in
  let title := lit "confirm_shutdown_title" in
  let message := lit "confirm_shutdown_message" in
  let w0 := log (AskYesNo title message) w in
  (run_command bare_python shutdown_command w0
   = (Returns (lit "Error: error_wsl_not_found"), ran [lit "wsl"; lit "--shutdown"] m w0))
  /\ since w (exec (shutdown_all bare_python true) w)
     = [AskYesNo title message; Run [lit "wsl"; lit "--shutdown"]; Run list_command]
  /\ since w (exec (shutdown_all bare_python false) w) = [AskYesNo title message].
Proof.
  intros m w title message w0.
  split; [vm_compute; reflexivity|].
  apply (shutdown_ignores_the_answer bare_python w title message
           (lit "Error: error_wsl_not_found") (ran [lit "wsl"; lit "--shutdown"] m w0));
    vm_compute; reflexivity.
Defined.

(** X19, on the reference machine: start on a machine without the tool. *)
Lemma start_missing_tool_witness :
  let m := Machine [] [lit "Ubuntu"] [] false in
  let w := set_selection (Some 0)
             (set_tree [row "Ubuntu" "Stopped" "2"] (at_startup m)) in
  (selected w = Some (row "Ubuntu" "Stopped" "2")
   /\ subprocess_Popen [lit "wsl"; lit "-d"; lit "Ubuntu"; lit "--cd"; lit "~"] (host w)
      = (NoExecutable, m))
  /\ since w (exec (start_distro bare_python) w)
     = [ShowError (lit "error_title") (lit "error_wsl_not_found")]
  /\ host (exec (start_distro bare_python) w) = m.
Proof.
  intros m w.
  split; [split; reflexivity|].
  apply (start_reports_missing_tool bare_python w (row "Ubuntu" "Stopped" "2")
           (lit "Ubuntu") m (lit "error_title") (lit "error_wsl_not_found"));
    vm_compute; reflexivity.
Defined.
